(** * CoalZero: the emissions / sinks / simulation calculation core

    A shallow embedding of [utils/emission_factors.py], [utils/emissions.py],
    [utils/sinks.py] and [utils/simulations.py].

    The Python functions are duck-typed over numbers, so each of them is
    transcribed once, over an abstract number interface [PyNumber], and
    then read in two ways:

    - [Exact]: numbers are rationals ([Q]) and arithmetic is exact.  This
      is the data model the specification speaks about ("all quantities are
      real numbers"); the algebraic laws (inverses, bounds, monotonicity,
      continuity) are stated here.
    - [CPython]: numbers are Python [int]s (unbounded, [Z]) and Python
      [float]s (IEEE-754 binary64, the kernel's primitive floats), with
      CPython's mixed-mode rules.  This is what the interpreter computes.
      Branching, the formulas and the absence of errors are proved here for
      all floats, and every worked scenario is replayed digit for digit;
      the algebraic laws hold here up to rounding only, so they are
      replayed on ranges of ordinary inputs rather than stated for all
      floats.

    The only exceptions arithmetic can raise are [ZeroDivisionError] (true
    division by zero) and [OverflowError] (an [int] too large for a
    [float]); a missing dictionary key raises [KeyError]. *)

From Stdlib Require Import ZArith QArith Qabs Bool List String Lia Lra Lqa.
From Stdlib Require Import Floats.
From Stdlib Require Uint63.
Import ListNotations.

Set Implicit Arguments.

(** ** Outcomes of a Python call *)

Inductive exn : Type :=
| ZeroDivisionError
| OverflowError
| KeyError.

Inductive outcome (A : Type) : Type :=
| Returns (a : A)
| Raises (e : exn).

Arguments Returns {A} a.
Arguments Raises {A} e.

Definition bind {A B : Type} (o : outcome A) (k : A -> outcome B) : outcome B :=
  match o with
  | Returns a => k a
  | Raises e => Raises e
  end.

Notation "x <- o ;; k" := (bind o (fun x => k))
  (at level 61, o at next level, right associativity).

(** Operands are evaluated left to right; the first exception wins. *)
Definition lift2 {A : Type} (op : A -> A -> outcome A)
    (oa ob : outcome A) : outcome A :=
  a <- oa ;; b <- ob ;; op a b.

(** ** The number interface *)

Class PyNumber (V : Type) : Type := {
  int_lit : Z -> V;               (* an integer literal such as [10000] *)
  float_lit : Q -> V;             (* a float literal, by its decimal text *)
  py_add : V -> V -> outcome V;   (* [a + b] *)
  py_sub : V -> V -> outcome V;   (* [a - b] *)
  py_mul : V -> V -> outcome V;   (* [a * b] *)
  py_truediv : V -> V -> outcome V; (* [a / b] *)
  py_eq : V -> V -> bool;         (* [a == b] *)
  py_le : V -> V -> bool          (* [a <= b] *)
}.

Declare Scope py_scope.
Delimit Scope py_scope with py.
Notation "a + b" := (lift2 py_add a b) : py_scope.
Notation "a - b" := (lift2 py_sub a b) : py_scope.
Notation "a * b" := (lift2 py_mul a b) : py_scope.
Notation "a / b" := (lift2 py_truediv a b) : py_scope.
Notation "! x" := (Returns x) (at level 1, format "! x") : py_scope.

(** ** Dictionaries with string keys *)

Definition dict (V : Type) : Type := list (string * V).

Fixpoint dict_get {V : Type} (d : dict V) (k : string) : outcome V :=
  match d with
  | [] => Raises KeyError
  | (k', v) :: d' => if String.eqb k k' then Returns v else dict_get d' k
  end.

(** ** The source, transcribed over any [PyNumber] *)

Section Core.

Context {V : Type} `{PyNumber V}.
Local Open Scope py_scope.
Local Open Scope string_scope.

(** *** utils/emission_factors.py *)

Definition DIESEL_EMISSION_FACTOR : V := float_lit 2.68.
Definition ELECTRICITY_EMISSION_FACTOR : V := float_lit 0.82.
Definition COAL_EXCAVATION_FACTOR : V := float_lit 0.15.
Definition TRANSPORTATION_FACTOR : V := float_lit 0.062.
Definition ABSORPTION_PER_HECTARE : V := int_lit 10000.
Definition ABSORPTION_PER_TREE : V := int_lit 22.
Definition RENEWABLE_EMISSION_FACTOR : V := float_lit 0.02.
Definition CARBON_CREDIT_PRICE : V := int_lit 15.
Definition KG_TO_TONNES : V := int_lit 1000.
Definition HECTARE_TO_ACRE : V := float_lit 2.47.

(** *** utils/emissions.py *)

Definition diesel_emissions (litres : V) : outcome V :=
  !litres * !DIESEL_EMISSION_FACTOR.

Definition electricity_emissions (kwh : V) : outcome V :=
  !kwh * !ELECTRICITY_EMISSION_FACTOR.

Definition excavation_emissions (coal_tonnes : V) : outcome V :=
  !coal_tonnes * !COAL_EXCAVATION_FACTOR.

Definition transportation_emissions (coal_tonnes distance_km : V) : outcome V :=
  !coal_tonnes * !distance_km * !TRANSPORTATION_FACTOR.

Definition total_emissions
    (diesel_em electricity_em excavation_em transport_em : V) : outcome V :=
  !diesel_em + !electricity_em + !excavation_em + !transport_em.

Definition per_capita_emissions (total_em workers : V) : outcome V :=
  if py_eq workers (int_lit 0) then
    !(int_lit 0)
  else
    !total_em / !workers.

Definition emissions_in_tonnes (emissions_kg : V) : outcome V :=
  !emissions_kg / !KG_TO_TONNES.

(** *** utils/sinks.py *)

Definition carbon_absorption_from_area (area_hectares : V) : outcome V :=
  !area_hectares * !ABSORPTION_PER_HECTARE.

Definition carbon_absorption_from_trees (num_trees : V) : outcome V :=
  !num_trees * !ABSORPTION_PER_TREE.

Definition total_absorption (area_hectares num_trees : V) : outcome V :=
  area_absorption <- carbon_absorption_from_area area_hectares ;;
  tree_absorption <- carbon_absorption_from_trees num_trees ;;
  !area_absorption + !tree_absorption.

Definition absorption_in_tonnes (absorption_kg : V) : outcome V :=
  !absorption_kg / !KG_TO_TONNES.

Definition land_required_for_neutrality (emission_gap_kg : V) : outcome V :=
  if py_le emission_gap_kg (int_lit 0) then
    !(int_lit 0)
  else
    !emission_gap_kg / !ABSORPTION_PER_HECTARE.

(** *** utils/simulations.py *)

Definition simulate_electrification
    (diesel_emissions electrification_percent : V) : outcome V :=
  reduction_factor <- (!(int_lit 100) - !electrification_percent) / !(int_lit 100) ;;
  !diesel_emissions * !reduction_factor.

Definition simulate_renewable_energy
    (electricity_kwh renewable_percent : V) : outcome (dict V) :=
  grid_percent <- (!(int_lit 100) - !renewable_percent) / !(int_lit 100) ;;
  renewable_fraction <- !renewable_percent / !(int_lit 100) ;;
  grid_emissions <-
    !electricity_kwh * !grid_percent * !ELECTRICITY_EMISSION_FACTOR ;;
  renewable_emissions <-
    !electricity_kwh * !renewable_fraction * !RENEWABLE_EMISSION_FACTOR ;;
  total_new_emissions <- !grid_emissions + !renewable_emissions ;;
  Returns [ ("total", total_new_emissions);
            ("grid", grid_emissions);
            ("renewable", renewable_emissions) ].

Definition simulate_afforestation
    (current_absorption added_area_hectares added_trees : V) : outcome V :=
  new_area_absorption <- carbon_absorption_from_area added_area_hectares ;;
  new_tree_absorption <- carbon_absorption_from_trees added_trees ;;
  !current_absorption + !new_area_absorption + !new_tree_absorption.

Definition calculate_carbon_credits (emission_gap_tonnes : V) : outcome V :=
  if py_le emission_gap_tonnes (int_lit 0) then
    !(int_lit 0)
  else
    !emission_gap_tonnes * !CARBON_CREDIT_PRICE.

Definition combined_simulation
    (diesel_em electricity_kwh current_absorption
     electrification_pct renewable_pct added_area added_trees : V)
    : outcome (dict V) :=
  new_diesel_em <- simulate_electrification diesel_em electrification_pct ;;
  new_elec_result <- simulate_renewable_energy electricity_kwh renewable_pct ;;
  new_absorption <-
    simulate_afforestation current_absorption added_area added_trees ;;
  new_elec_total <- dict_get new_elec_result "total" ;;
  Returns [ ("diesel_emissions", new_diesel_em);
            ("electricity_emissions", new_elec_total);
            ("total_absorption", new_absorption) ].

End Core.

(** ** Exact arithmetic *)

Module Exact.

#[export] Instance Q_number : PyNumber Q := {|
  int_lit z := inject_Z z;
  float_lit q := q;
  py_add a b := Returns (a + b)%Q;
  py_sub a b := Returns (a - b)%Q;
  py_mul a b := Returns (a * b)%Q;
  py_truediv a b :=
    if Qeq_bool b 0 then Raises ZeroDivisionError else Returns (a / b)%Q;
  py_eq := Qeq_bool;
  py_le := Qle_bool
|}.

End Exact.

(** ** CPython's [int] and [float] *)

Module CPython.

Inductive PyVal : Type :=
| PyInt (n : Z)
| PyFloat (f : float).

(** An integer as an (unrounded) binary number [m * 2^0]. *)
Definition Z2SF (n : Z) : spec_float :=
  match n with
  | Z0 => S754_zero false
  | Zpos p => S754_finite false p 0
  | Zneg p => S754_finite true p 0
  end.

(** A correctly rounded result that does not fit a [float] is an
    [OverflowError] wherever an [int] is converted or divided. *)
Definition checked (x : spec_float) : outcome float :=
  match x with
  | S754_infinity _ => Raises OverflowError
  | _ => Returns (SF2Prim x)
  end.

(** [float(n)]: round to nearest, ties to even. *)
Definition int_to_float (n : Z) : outcome float :=
  checked (binary_normalize prec emax n 0 false).

Definition to_float (v : PyVal) : outcome float :=
  match v with
  | PyFloat f => Returns f
  | PyInt n => int_to_float n
  end.

(** [m / n] on two [int]s: the correctly rounded quotient. *)
Definition int_true_divide (m n : Z) : outcome PyVal :=
  if (n =? 0)%Z then Raises ZeroDivisionError
  else q <- checked (SFdiv prec emax (Z2SF m) (Z2SF n)) ;; Returns (PyFloat q).

Definition float_op (op : float -> float -> float) (a b : PyVal)
    : outcome PyVal :=
  x <- to_float a ;; y <- to_float b ;; Returns (PyFloat (op x y)).

Definition float_div (a b : PyVal) : outcome PyVal :=
  x <- to_float a ;; y <- to_float b ;;
  if PrimFloat.eqb y 0 then Raises ZeroDivisionError
  else Returns (PyFloat (x / y)).

Definition add (a b : PyVal) : outcome PyVal :=
  match a, b with
  | PyInt m, PyInt n => Returns (PyInt (m + n))
  | _, _ => float_op PrimFloat.add a b
  end.

Definition sub (a b : PyVal) : outcome PyVal :=
  match a, b with
  | PyInt m, PyInt n => Returns (PyInt (m - n))
  | _, _ => float_op PrimFloat.sub a b
  end.

Definition mul (a b : PyVal) : outcome PyVal :=
  match a, b with
  | PyInt m, PyInt n => Returns (PyInt (m * n))
  | _, _ => float_op PrimFloat.mul a b
  end.

Definition truediv (a b : PyVal) : outcome PyVal :=
  match a, b with
  | PyInt m, PyInt n => int_true_divide m n
  | _, _ => float_div a b
  end.

(** An [int] against a [float]: compared by value, without rounding. *)
Definition Z_compare_SF (n : Z) (x : spec_float) : option comparison :=
  match x with
  | S754_nan => None
  | S754_infinity s => Some (if s then Gt else Lt)
  | S754_zero _ => Some (n ?= 0)%Z
  | S754_finite s m e =>
      let v := if s then Zneg m else Zpos m in
      Some match e with
           | Zneg k => (n * 2 ^ Zpos k ?= v)%Z
           | _ => (n ?= v * 2 ^ e)%Z
           end
  end.

Definition compare (a b : PyVal) : option comparison :=
  match a, b with
  | PyInt m, PyInt n => Some (m ?= n)%Z
  | PyInt m, PyFloat y => Z_compare_SF m (Prim2SF y)
  | PyFloat x, PyInt n => option_map CompOpp (Z_compare_SF n (Prim2SF x))
  | PyFloat x, PyFloat y => SFcompare (Prim2SF x) (Prim2SF y)
  end.

Definition eq (a b : PyVal) : bool :=
  match compare a b with Some Eq => true | _ => false end.

Definition le (a b : PyVal) : bool :=
  match compare a b with Some (Lt | Eq) => true | _ => false end.

Definition lt (a b : PyVal) : bool :=
  match compare a b with Some Lt => true | _ => false end.

(** A decimal literal denotes the [float] nearest to it. *)
Definition literal (q : Q) : float :=
  SF2Prim (SFdiv prec emax (Z2SF (Qnum q)) (Z2SF (Zpos (Qden q)))).

#[export] Instance PyVal_number : PyNumber PyVal := {|
  int_lit := PyInt;
  float_lit q := PyFloat (literal q);
  py_add := add;
  py_sub := sub;
  py_mul := mul;
  py_truediv := truediv;
  py_eq := eq;
  py_le := le
|}.

End CPython.

Import Exact CPython.

(** ** How results are reported *)

(** In exact arithmetic a call yields [q] when it returns a rational equal
    to [q]; under CPython it gives [v] when it returns precisely the object
    [v] (same type, same bits). *)
Definition yields (o : outcome Q) (q : Q) : Prop :=
  match o with
  | Returns v => v == q
  | Raises _ => False
  end.

Definition gives (o : outcome PyVal) (v : PyVal) : Prop := o = Returns v.

(** ** The dashboard's derived quantities (app.py) *)

Section App.

Context {V : Type} `{PyNumber V}.
Local Open Scope py_scope.

(** [emission_gap_kg = total_em - total_absorption_kg]
    [emission_gap_tonnes = emission_gap_kg / 1000] *)
Definition emission_gap_kg (total_em total_absorption_kg : V) : outcome V :=
  !total_em - !total_absorption_kg.

Definition emission_gap_tonnes (emission_gap_kg : V) : outcome V :=
  !emission_gap_kg / !(int_lit 1000).

(** [new_total_em = new_diesel_em + new_electricity_em + excavation_em + transport_em]
    [new_gap_tonnes = (new_total_em - new_absorption) / 1000] *)
Definition new_total_em
    (new_diesel_em new_electricity_em excavation_em transport_em : V)
    : outcome V :=
  !new_diesel_em + !new_electricity_em + !excavation_em + !transport_em.

Definition new_gap_tonnes (new_total_em new_absorption : V) : outcome V :=
  (!new_total_em - !new_absorption) / !(int_lit 1000).

(** [new_elec_result['total']], as [combined_simulation] reads it. *)
Definition renewable_total (electricity_kwh renewable_percent : V) : outcome V :=
  new_elec_result <- simulate_renewable_energy electricity_kwh renewable_percent ;;
  dict_get new_elec_result "total".


End App.

(** ** The two worked scenarios of the specification

    Both are written once, with the literal types the dashboard passes
    (float quantities, integer head counts, tree counts and percentages),
    and are read through [returns], the way a result is reported. *)

Section Scenarios.

Context {V : Type} `{PyNumber V}.
Variable returns : outcome V -> V -> Prop.

Definition scenario_1 : Prop :=
  returns (diesel_emissions (float_lit 50000)) (float_lit 134000) /\
  returns (electricity_emissions (float_lit 500000)) (float_lit 410000) /\
  returns (excavation_emissions (float_lit 100000)) (float_lit 15000) /\
  returns (transportation_emissions (float_lit 100000) (float_lit 50))
          (float_lit 310000) /\
  returns (total_emissions (float_lit 134000) (float_lit 410000)
                           (float_lit 15000) (float_lit 310000))
          (float_lit 869000) /\
  returns (total_absorption (float_lit 10) (int_lit 1000)) (float_lit 122000) /\
  returns (emission_gap_kg (float_lit 869000) (float_lit 122000))
          (float_lit 747000) /\
  returns (emission_gap_tonnes (float_lit 747000)) (float_lit 747) /\
  returns (per_capita_emissions (float_lit 869000) (int_lit 500))
          (float_lit 1738) /\
  returns (land_required_for_neutrality (float_lit 747000)) (float_lit 74.7) /\
  returns (land_required_for_neutrality (int_lit 747000)) (float_lit 74.7).

Definition simulation_2 : outcome (dict V) :=
  combined_simulation (float_lit 134000) (float_lit 500000) (float_lit 122000)
                      (int_lit 30) (int_lit 50) (float_lit 20) (int_lit 2000).

Definition scenario_2 : Prop :=
  returns (r <- simulation_2 ;; dict_get r "diesel_emissions")
          (float_lit 93800) /\
  returns (r <- simulation_2 ;; dict_get r "electricity_emissions")
          (float_lit 210000) /\
  returns (r <- simulation_2 ;; dict_get r "total_absorption")
          (float_lit 366000) /\
  returns (r <- simulate_renewable_energy (float_lit 500000) (int_lit 50) ;;
           dict_get r "grid")
          (float_lit 205000) /\
  returns (r <- simulate_renewable_energy (float_lit 500000) (int_lit 50) ;;
           dict_get r "renewable")
          (float_lit 5000) /\
  returns (new_total_em (float_lit 93800) (float_lit 210000)
                        (float_lit 15000) (float_lit 310000))
          (float_lit 628800) /\
  returns (new_gap_tonnes (float_lit 628800) (float_lit 366000))
          (float_lit 262.8) /\
  returns (calculate_carbon_credits (float_lit 262.8)) (float_lit 3942).

End Scenarios.

(** ** Checks that run under CPython *)

(** The shapes a value rounded with sign [s] can take. *)
Definition signed_like (s : bool) (x : spec_float) : Prop :=
  x = S754_nan \/ x = S754_zero s \/ x = S754_infinity s \/
  exists m e, x = S754_finite s m e.

(** [lo, lo + 1, ..., hi] *)
Definition Z_range (lo hi : Z) : list Z :=
  map (fun k => (lo + Z.of_nat k)%Z) (seq 0 (Z.to_nat (hi - lo + 1))).

(** The call returns an object that compares equal ([==]) to [v]. *)
Definition equal_to (o : outcome PyVal) (v : PyVal) : bool :=
  match o with
  | Returns r => CPython.eq r v
  | Raises _ => false
  end.




(** [kwh * 0.02 <= total <= electricity_emissions(kwh)] at an integer [pct]. *)
Definition renewable_within_bounds_at (kwh : PyVal) (pct : Z) : bool :=
  match renewable_total kwh (PyInt pct),
        electricity_emissions kwh,
        py_mul kwh (float_lit 0.02) with
  | Returns t, Returns e, Returns f => CPython.le f t && CPython.le t e
  | _, _, _ => false
  end.

(** The total at [pct + 1] does not exceed the total at [pct]. *)
Definition renewable_steps_down_at (kwh : PyVal) (pct : Z) : bool :=
  match renewable_total kwh (PyInt pct),
        renewable_total kwh (PyInt (pct + 1)) with
  | Returns t, Returns t' => CPython.le t' t
  | _, _ => false
  end.

(** ** Strict comparison, and the presentation layer's arithmetic *)

(** [a > b], which the dashboard uses to guard a division or to pick what
    is shown. *)
Class PyStrict (V : Type) : Type := {
  py_gt : V -> V -> bool
}.

#[export] Instance Q_strict : PyStrict Q := {|
  py_gt a b := negb (Qle_bool a b)
|}.

#[export] Instance PyVal_strict : PyStrict PyVal := {|
  py_gt a b := CPython.lt b a
|}.

Section Presentation.

Context {V : Type} `{PyNumber V} `{PyStrict V}.
Local Open Scope py_scope.

(** app.py, "Percentage" column of the breakdown table:
    [(diesel_em/total_em*100) if total_em > 0 else 0]
    (pdf_export.py guards the same quotient with the same test). *)
Definition percentage (activity_em total_em : V) : outcome V :=
  if py_gt total_em (int_lit 0) then
    !activity_em / !total_em * !(int_lit 100)
  else
    !(int_lit 0).

End Presentation.

(** ** Shapes of binary64 values *)

(** A rounded non-negative mantissa is a zero, an infinity or a finite
    number of the sign it was given. *)
Definition rounded_like (s : bool) (x : spec_float) : Prop :=
  x = S754_zero s \/ x = S754_infinity s \/ exists m e, x = S754_finite s m e.

(** Neither NaN nor an infinity. *)
Definition finite (x : float) : bool :=
  match Prim2SF x with
  | S754_zero _ | S754_finite _ _ _ => true
  | _ => false
  end.

(** Not below zero: [x < 0] is false (NaN included, as in Python). *)
Definition not_negative (v : PyVal) : bool := negb (CPython.lt v (PyInt 0)).

(** The only exception a call may raise is [OverflowError]. *)
Definition only_overflows {A : Type} (o : outcome A) : Prop :=
  forall e, o = Raises e -> e = OverflowError.

(** Zero or above, or not a number: every shape but the negative ones. *)
Definition nonneg_shape (x : spec_float) : Prop :=
  x = S754_nan \/ (exists s, x = S754_zero s) \/ x = S754_infinity false \/
  exists m e, x = S754_finite false m e.



(** With a percentage slider at the integer [pct], both [(100 - pct) / 100]
    and [pct / 100] return a float. *)
Definition slider_fractions_at (pct : Z) : bool :=
  match py_truediv (PyInt (100 - pct)) (PyInt 100),
        py_truediv (PyInt pct) (PyInt 100) with
  | Returns (PyFloat _), Returns (PyFloat _) => true
  | _, _ => false
  end.

(** * Exact arithmetic: the algebraic laws *)

Section ExactLaws.

Local Open Scope Q_scope.

Ltac exact_literals :=
  cbv [int_lit float_lit Q_number inject_Z
       DIESEL_EMISSION_FACTOR ELECTRICITY_EMISSION_FACTOR
       COAL_EXCAVATION_FACTOR TRANSPORTATION_FACTOR
       ABSORPTION_PER_HECTARE ABSORPTION_PER_TREE
       RENEWABLE_EMISSION_FACTOR CARBON_CREDIT_PRICE KG_TO_TONNES].

Lemma Qeq_bool_false_of_lt (w : Q) : 0 < w -> Qeq_bool w 0 = false.
Proof.
  intro Hw. destruct (Qeq_bool w 0) eqn:E; [|reflexivity].
  apply Qeq_bool_iff in E. lra.
Qed.

Lemma Qle_bool_false_of_lt (g : Q) : 0 < g -> Qle_bool g 0 = false.
Proof.
  intro Hg. destruct (Qle_bool g 0) eqn:E; [|reflexivity].
  apply Qle_bool_iff in E. lra.
Qed.

Lemma Qle_bool_true_of_le (g : Q) : g <= 0 -> Qle_bool g 0 = true.
Proof. intro Hg. now apply Qle_bool_iff. Qed.

Lemma exact_per_capita_zero (T W : Q) :
  W == 0 -> per_capita_emissions T W = Returns 0.
Proof.
  intro HW. unfold per_capita_emissions. cbn.
  replace (Qeq_bool W (inject_Z 0)) with true; [reflexivity|].
  symmetry. now apply Qeq_bool_iff.
Qed.

Lemma exact_per_capita_pos (T W : Q) :
  0 < W -> per_capita_emissions T W = Returns (T / W).
Proof.
  intro HW. unfold per_capita_emissions. cbn.
  change (inject_Z 0) with 0.
  now rewrite (Qeq_bool_false_of_lt HW).
Qed.

Lemma exact_land_required_nonpos (gap : Q) :
  gap <= 0 -> land_required_for_neutrality gap = Returns 0.
Proof.
  intro Hg. unfold land_required_for_neutrality. cbn.
  change (inject_Z 0) with 0.
  now rewrite (Qle_bool_true_of_le Hg).
Qed.

Lemma exact_land_required_pos (gap : Q) :
  0 < gap -> land_required_for_neutrality gap = Returns (gap / 10000).
Proof.
  intro Hg. unfold land_required_for_neutrality. cbn.
  change (inject_Z 0) with 0.
  now rewrite (Qle_bool_false_of_lt Hg).
Qed.

Lemma exact_credits_nonpos (g : Q) :
  g <= 0 -> calculate_carbon_credits g = Returns 0.
Proof.
  intro Hg. unfold calculate_carbon_credits. cbn.
  change (inject_Z 0) with 0.
  now rewrite (Qle_bool_true_of_le Hg).
Qed.

Lemma exact_credits_pos (g : Q) :
  0 < g -> calculate_carbon_credits g = Returns (g * 15).
Proof.
  intro Hg. unfold calculate_carbon_credits. cbn.
  change (inject_Z 0) with 0.
  now rewrite (Qle_bool_false_of_lt Hg).
Qed.

Lemma exact_land_required_total (gap : Q) :
  exists r, land_required_for_neutrality gap = Returns r /\ 0 <= r.
Proof.
  destruct (Qlt_le_dec 0 gap) as [Hpos | Hneg].
  - exists (gap / 10000). split; [now apply exact_land_required_pos|].
    apply Qle_shift_div_l; lra.
  - exists 0. split; [now apply exact_land_required_nonpos | lra].
Qed.

Lemma exact_land_required_continuous_at_0 (eps : Q) :
  0 < eps ->
  exists delta, 0 < delta /\
    forall gap r, Qabs (gap - 0) < delta ->
      land_required_for_neutrality gap = Returns r ->
      yields (land_required_for_neutrality 0) 0 /\ Qabs (r - 0) < eps.
Proof.
  intro Heps. exists eps. split; [assumption|].
  intros gap r Hgap Hr. split; [reflexivity|].
  apply Qabs_Qlt_condition in Hgap.
  apply Qabs_Qlt_condition.
  destruct (Qlt_le_dec 0 gap) as [Hpos | Hneg].
  - rewrite (exact_land_required_pos Hpos) in Hr. injection Hr as <-.
    assert (Hq : gap / 10000 <= gap).
    { apply Qle_shift_div_r; lra. }
    assert (Hq0 : 0 <= gap / 10000).
    { apply Qle_shift_div_l; lra. }
    lra.
  - rewrite (exact_land_required_nonpos Hneg) in Hr. injection Hr as <-.
    lra.
Qed.

Lemma exact_renewable_breakdown (kwh pct : Q) :
  exists total grid renewable,
    simulate_renewable_energy kwh pct =
      Returns [ ("total"%string, total); ("grid"%string, grid);
                ("renewable"%string, renewable) ] /\
    grid == kwh * (100 - pct) / 100 * 0.82 /\
    renewable == kwh * pct / 100 * 0.02 /\
    total == grid + renewable.
Proof.
  eexists _, _, _. split; [reflexivity|].
  exact_literals. repeat split; try reflexivity; field.
Qed.

Lemma exact_renewable_total (kwh pct : Q) :
  renewable_total kwh pct =
    Returns (kwh * ((100 - pct) / 100) * 0.82 + kwh * (pct / 100) * 0.02).
Proof. reflexivity. Qed.






Lemma exact_renewable_total_alt (kwh pct : Q) :
  kwh * ((100 - pct) / 100) * 0.82 + kwh * (pct / 100) * 0.02
  == kwh * 0.82 - kwh * pct * 0.008.
Proof. field. Qed.

Lemma exact_renewable_bounds (kwh pct t e : Q) :
  0 <= kwh -> 0 <= pct <= 100 ->
  renewable_total kwh pct = Returns t ->
  electricity_emissions kwh = Returns e ->
  kwh * 0.02 <= t <= e.
Proof.
  intros Hk [Hp0 Hp100] Ht He.
  rewrite exact_renewable_total in Ht. injection Ht as <-.
  injection He as <-. exact_literals.
  rewrite exact_renewable_total_alt.
  split; nra.
Qed.

Lemma exact_renewable_monotone (kwh p1 p2 t1 t2 : Q) :
  0 <= kwh -> p1 <= p2 ->
  renewable_total kwh p1 = Returns t1 ->
  renewable_total kwh p2 = Returns t2 ->
  t2 <= t1.
Proof.
  intros Hk Hp H1 H2.
  rewrite exact_renewable_total in H1, H2.
  injection H1 as <-. injection H2 as <-.
  rewrite !exact_renewable_total_alt. nra.
Qed.

End ExactLaws.

(** * CPython: comparisons against [0] and the sign of a quotient *)

Section CPythonLaws.

Lemma Z_compare_SF_0_pos (m : positive) (e : Z) :
  Z_compare_SF 0 (S754_finite false m e) = Some Lt.
Proof.
  unfold Z_compare_SF. f_equal.
  destruct e as [ | k | k ]; apply Z.compare_lt_iff; lia.
Qed.

Lemma Z_compare_SF_0_neg (m : positive) (e : Z) :
  Z_compare_SF 0 (S754_finite true m e) = Some Gt.
Proof.
  unfold Z_compare_SF. f_equal.
  destruct e as [ | k | k ]; apply Z.compare_gt_iff; lia.
Qed.

Lemma lt_zero_not_eq (W : PyVal) :
  CPython.lt (PyInt 0) W = true -> CPython.eq W (PyInt 0) = false.
Proof.
  unfold CPython.lt, CPython.eq. destruct W as [n | w]; cbn.
  - destruct n; cbn; congruence.
  - destruct (Z_compare_SF 0 (Prim2SF w)) as [[ | | ]|]; cbn; congruence.
Qed.

Lemma lt_zero_not_le (W : PyVal) :
  CPython.lt (PyInt 0) W = true -> CPython.le W (PyInt 0) = false.
Proof.
  unfold CPython.lt, CPython.le. destruct W as [n | w]; cbn.
  - destruct n; cbn; congruence.
  - destruct (Z_compare_SF 0 (Prim2SF w)) as [[ | | ]|]; cbn; congruence.
Qed.

Lemma lt_zero_float_nonzero (w : float) :
  CPython.lt (PyInt 0) (PyFloat w) = true -> PrimFloat.eqb w 0 = false.
Proof.
  unfold CPython.lt. cbn. rewrite eqb_spec.
  change (Prim2SF 0) with (S754_zero false).
  destruct (Prim2SF w) as [s | s | | s m e]; cbn; try congruence;
    destruct s; reflexivity.
Qed.

(** Rounding never changes the sign it was given. *)
Lemma binary_round_aux_signed (s : bool) (m e : Z) (l : location) :
  signed_like s (binary_round_aux prec emax s m e l).
Proof.
  unfold binary_round_aux, signed_like.
  destruct (shr_fexp prec emax m e l) as [mrs' e'].
  destruct (shr_fexp prec emax _ e' loc_Exact) as [mrs'' e''].
  destruct (shr_m mrs'') as [ | p | p ]; auto.
  destruct (e'' <=? emax - prec)%Z; eauto 6.
Qed.

Lemma Z_compare_SF_0_signed_pos (x : spec_float) :
  signed_like false x -> Z_compare_SF 0 x <> Some Gt.
Proof.
  intros [-> | [-> | [-> | (m & e & ->)]]];
    [cbn; discriminate .. | rewrite Z_compare_SF_0_pos; discriminate].
Qed.

Lemma SFdiv_pos_signed (x : spec_float) (m : positive) (e : Z) :
  Z_compare_SF 0 x = Some Lt ->
  signed_like false (SFdiv prec emax x (S754_finite false m e)).
Proof.
  destruct x as [s | s | | s mx ex].
  - cbn. discriminate.
  - destruct s; cbn; [discriminate|]. intros _. right. right. left. reflexivity.
  - cbn. discriminate.
  - destruct s.
    + rewrite Z_compare_SF_0_neg. discriminate.
    + intros _. unfold SFdiv.
      destruct (SFdiv_core_binary prec emax (Z.pos mx) ex (Z.pos m) e)
        as [[mz ez] lz].
      apply binary_round_aux_signed.
Qed.

Lemma float_10000_shape : exists m e, Prim2SF 10000 = S754_finite false m e.
Proof. eexists _, _. vm_compute. reflexivity. Qed.

Lemma cpython_per_capita_zero (T W : PyVal) :
  CPython.eq W (PyInt 0) = true ->
  per_capita_emissions T W = Returns (PyInt 0).
Proof.
  intro HW. unfold per_capita_emissions.
  change (py_eq W (int_lit 0)) with (CPython.eq W (PyInt 0)).
  now rewrite HW.
Qed.

Lemma cpython_per_capita_pos (T W : PyVal) :
  CPython.lt (PyInt 0) W = true ->
  per_capita_emissions T W = truediv T W.
Proof.
  intro HW. unfold per_capita_emissions.
  change (py_eq W (int_lit 0)) with (CPython.eq W (PyInt 0)).
  now rewrite (lt_zero_not_eq _ HW).
Qed.

Lemma cpython_per_capita_float (t w : float) :
  CPython.lt (PyInt 0) (PyFloat w) = true ->
  per_capita_emissions (PyFloat t) (PyFloat w) = Returns (PyFloat (t / w)).
Proof.
  intro HW. rewrite (cpython_per_capita_pos _ _ HW).
  cbn. unfold float_div. cbn.
  now rewrite (lt_zero_float_nonzero _ HW).
Qed.

Lemma cpython_land_required_nonpos (gap : PyVal) :
  CPython.le gap (PyInt 0) = true ->
  land_required_for_neutrality gap = Returns (PyInt 0).
Proof.
  intro Hle. unfold land_required_for_neutrality.
  change (py_le gap (int_lit 0)) with (CPython.le gap (PyInt 0)).
  now rewrite Hle.
Qed.

Lemma cpython_land_required_else (g : float) :
  CPython.le (PyFloat g) (PyInt 0) = false ->
  land_required_for_neutrality (PyFloat g) = Returns (PyFloat (g / 10000)).
Proof.
  intro Hle. unfold land_required_for_neutrality.
  change (py_le (PyFloat g) (int_lit 0)) with (CPython.le (PyFloat g) (PyInt 0)).
  rewrite Hle. reflexivity.
Qed.

Lemma cpython_land_required_never_negative (g : float) :
  exists r, land_required_for_neutrality (PyFloat g) = Returns r /\
            CPython.lt r (PyInt 0) = false.
Proof.
  destruct (CPython.le (PyFloat g) (PyInt 0)) eqn:Hle.
  - exists (PyInt 0). split; [now apply cpython_land_required_nonpos | reflexivity].
  - exists (PyFloat (g / 10000)).
    split; [now apply cpython_land_required_else|].
    unfold CPython.lt. cbn [compare]. rewrite div_spec.
    destruct float_10000_shape as (m & e & ->).
    unfold CPython.le in Hle. cbn [compare] in Hle.
    destruct (Z_compare_SF 0 (Prim2SF g)) as [[ | | ]|] eqn:Hc;
      cbn in Hle; try discriminate.
    + apply SFdiv_pos_signed with (m := m) (e := e) in Hc.
      apply Z_compare_SF_0_signed_pos in Hc.
      destruct (Z_compare_SF 0 _) as [[ | | ]|]; cbn; congruence.
    + destruct (Prim2SF g) as [s | s | | s mx ex]; cbn in Hc;
        try discriminate.
      reflexivity.
Qed.

Lemma cpython_credits_nonpos (gap : PyVal) :
  CPython.le gap (PyInt 0) = true ->
  calculate_carbon_credits gap = Returns (PyInt 0).
Proof.
  intro Hle. unfold calculate_carbon_credits.
  change (py_le gap (int_lit 0)) with (CPython.le gap (PyInt 0)).
  now rewrite Hle.
Qed.

Lemma cpython_credits_pos (g : float) :
  CPython.lt (PyInt 0) (PyFloat g) = true ->
  calculate_carbon_credits (PyFloat g) = Returns (PyFloat (g * 15)).
Proof.
  intro Hg. unfold calculate_carbon_credits.
  change (py_le (PyFloat g) (int_lit 0)) with (CPython.le (PyFloat g) (PyInt 0)).
  rewrite (lt_zero_not_le _ Hg). reflexivity.
Qed.

Lemma Z_range_forallb (f : Z -> bool) (lo hi : Z) :
  forallb f (Z_range lo hi) = true ->
  forall z, (lo <= z <= hi)%Z -> f z = true.
Proof.
  intros Hall z Hz. rewrite forallb_forall in Hall. apply Hall.
  unfold Z_range. apply in_map_iff. exists (Z.to_nat (z - lo)).
  split; [lia|]. apply in_seq. lia.
Qed.

End CPythonLaws.

(** * CPython: rounding, signs and conversions *)

(** ** Outcomes *)

Section Outcomes.

Lemma bind_returns (A B : Type) (o : outcome A) (k : A -> outcome B) (b : B) :
  bind o k = Returns b -> exists a, o = Returns a /\ k a = Returns b.
Proof. destruct o as [a | e]; cbn; [eauto | discriminate]. Qed.

Lemma bind_raises (A B : Type) (o : outcome A) (k : A -> outcome B) (e : exn) :
  bind o k = Raises e ->
  o = Raises e \/ exists a, o = Returns a /\ k a = Raises e.
Proof.
  destruct o as [a | e']; cbn; [eauto|].
  intro E. injection E as ->. now left.
Qed.

Lemma only_overflows_returns (A : Type) (a : A) : only_overflows (Returns a).
Proof. intros e He. discriminate. Qed.

Lemma only_overflows_raise (A : Type) : only_overflows (@Raises A OverflowError).
Proof. intros e He. now injection He as <-. Qed.

Lemma only_overflows_bind (A B : Type) (o : outcome A) (k : A -> outcome B) :
  only_overflows o -> (forall a, only_overflows (k a)) ->
  only_overflows (bind o k).
Proof.
  intros Ho Hk e He. apply bind_raises in He.
  destruct He as [He | (a & _ & He)]; [now apply Ho | now apply (Hk a)].
Qed.

Lemma only_overflows_lift2 (A : Type) (op : A -> A -> outcome A)
    (oa ob : outcome A) :
  only_overflows oa -> only_overflows ob ->
  (forall a b, only_overflows (op a b)) ->
  only_overflows (lift2 op oa ob).
Proof.
  intros Ha Hb Hop. unfold lift2.
  apply only_overflows_bind; [exact Ha | intro a].
  apply only_overflows_bind; [exact Hb | intro b]. apply Hop.
Qed.

Lemma only_overflows_lift2_const (A : Type) (op : A -> A -> outcome A)
    (oa : outcome A) (c : A) :
  only_overflows oa -> (forall a, only_overflows (op a c)) ->
  only_overflows (lift2 op oa (Returns c)).
Proof.
  intros Ha Hop. unfold lift2.
  apply only_overflows_bind; [exact Ha | intro a]. cbn [bind]. apply Hop.
Qed.

End Outcomes.

(** ** Rounding to binary64 *)

Section RoundingShapes.

Lemma iter_pos_preserves (A : Type) (P : A -> Prop) (f : A -> A) :
  (forall x, P x -> P (f x)) ->
  forall (n : positive) (x : A), P x -> P (iter_pos f n x).
Proof.
  intros Hf n. induction n as [n IH | n IH | ]; intros x Hx; cbn.
  - apply IH, IH, Hf, Hx.
  - apply IH, IH, Hx.
  - apply Hf, Hx.
Qed.

Lemma shr_1_nonneg (mrs : shr_record) :
  (0 <= shr_m mrs)%Z -> (0 <= shr_m (shr_1 mrs))%Z.
Proof.
  destruct mrs as [m r s]. cbn.
  destruct m as [ | [p | p | ] | p ]; cbn; lia.
Qed.

Lemma shr_fexp_nonneg (m e : Z) (l : location) :
  (0 <= m)%Z -> (0 <= shr_m (fst (shr_fexp prec emax m e l)))%Z.
Proof.
  intro Hm. unfold shr_fexp, shr.
  assert (H0 : (0 <= shr_m (shr_record_of_loc m l))%Z).
  { destruct l as [ | [ | | ]]; exact Hm. }
  destruct (fexp prec emax (Zdigits2 m + e) - e)%Z as [ | n | n ]; cbn [fst]; auto.
  now apply (iter_pos_preserves (fun r => (0 <= shr_m r)%Z) shr_1 shr_1_nonneg).
Qed.

Lemma round_nearest_even_nonneg (m : Z) (l : location) :
  (0 <= m)%Z -> (0 <= round_nearest_even m l)%Z.
Proof.
  intro Hm. destruct l as [ | [ | | ]]; cbn; try lia.
  destruct (Z.even m); lia.
Qed.




Lemma binary_round_aux_rounded (s : bool) (m e : Z) (l : location) :
  (0 <= m)%Z -> rounded_like s (binary_round_aux prec emax s m e l).
Proof.
  intro Hm. unfold binary_round_aux, rounded_like.
  pose proof (shr_fexp_nonneg e l Hm) as H1.
  destruct (shr_fexp prec emax m e l) as [mrs' e']. cbn [fst] in H1.
  pose proof (shr_fexp_nonneg e' loc_Exact
                (round_nearest_even_nonneg (loc_of_shr_record mrs') H1)) as H2.
  destruct (shr_fexp prec emax _ e' loc_Exact) as [mrs'' e'']. cbn [fst] in H2.
  destruct (shr_m mrs'') as [ | p | p ]; [auto | | lia].
  destruct (e'' <=? emax - prec)%Z; eauto.
Qed.

End RoundingShapes.

Section FloatUnits.

Local Open Scope Z_scope.

Lemma Prim2SF_one : Prim2SF 1 = S754_finite false 4503599627370496 (-52).
Proof. vm_compute. reflexivity. Qed.

Lemma Prim2SF_zero : Prim2SF 0 = S754_zero false.
Proof. vm_compute. reflexivity. Qed.

Lemma Prim2SF_inj (x y : float) : Prim2SF x = Prim2SF y -> x = y.
Proof.
  intro H. rewrite <- (SF2Prim_Prim2SF x), <- (SF2Prim_Prim2SF y). now f_equal.
Qed.

Lemma digits2_pos_shift52 (m : positive) :
  Z.pos (digits2_pos (m * 4503599627370496)) = Z.pos (digits2_pos m) + 52.
Proof. rewrite Pos.mul_comm. cbn [Pos.mul digits2_pos]. lia. Qed.

Lemma binary_round_aux_times_one (s : bool) (m : positive) (e : Z) :
  bounded prec emax m e = true ->
  binary_round_aux prec emax s (Z.pos (m * 4503599627370496)) (e + -52) loc_Exact
  = S754_finite s m e.
Proof.
  unfold bounded, canonical_mantissa.
  intros [Hc He]%andb_prop. apply Z.eqb_eq in Hc.
  assert (E1 : shr_fexp prec emax (Z.pos (m * 4503599627370496)) (e + -52) loc_Exact
               = (Build_shr_record (Z.pos m) false false, e)).
  { unfold shr_fexp. cbn [Zdigits2]. rewrite digits2_pos_shift52.
    replace (Z.pos (digits2_pos m) + 52 + (e + -52))
      with (Z.pos (digits2_pos m) + e) by lia.
    rewrite Hc. replace (e - (e + -52)) with 52 by lia.
    unfold shr. rewrite Pos.mul_comm. cbn. f_equal. lia. }
  assert (E2 : shr_fexp prec emax (Z.pos m) e loc_Exact
               = (Build_shr_record (Z.pos m) false false, e)).
  { unfold shr_fexp. cbn [Zdigits2]. rewrite Hc, Z.sub_diag. reflexivity. }
  unfold binary_round_aux. rewrite E1.
  cbn [shr_m loc_of_shr_record round_nearest_even]. rewrite E2.
  cbn [shr_m]. now rewrite He.
Qed.

Lemma float_mul_one (x : float) : (x * 1)%float = x.
Proof.
  apply Prim2SF_inj. rewrite mul_spec, Prim2SF_one. unfold SF64mul.
  pose proof (Prim2SF_valid x) as Hv.
  destruct (Prim2SF x) as [s | s | | s m e]; cbn [SFmul];
    rewrite ?xorb_false_r; try reflexivity.
  now apply binary_round_aux_times_one.
Qed.

End FloatUnits.

Section FloatSigns.

Local Open Scope Z_scope.

Lemma signed_like_nonneg (x : spec_float) : signed_like false x -> nonneg_shape x.
Proof.
  unfold nonneg_shape. intros [-> | [-> | [-> | (m & e & ->)]]]; eauto 6.
Qed.

Lemma not_negative_float (f : float) :
  not_negative (PyFloat f) = true <-> nonneg_shape (Prim2SF f).
Proof.
  unfold not_negative, CPython.lt, nonneg_shape. cbn [compare].
  destruct (Prim2SF f) as [s | s | | s m e].
  - cbn. split; [eauto | reflexivity].
  - destruct s; cbn; split; auto; try discriminate.
    intros [H | [[s H] | [H | (m & e & H)]]]; discriminate.
  - cbn. split; auto.
  - destruct s.
    + rewrite Z_compare_SF_0_neg. cbn. split; [discriminate|].
      intros [H | [[s H] | [H | (m' & e' & H)]]]; discriminate.
    + rewrite Z_compare_SF_0_pos. cbn. split; eauto 6.
Qed.

Lemma SFmul_nonneg (x y : spec_float) :
  nonneg_shape x -> nonneg_shape y -> nonneg_shape (SFmul prec emax x y).
Proof.
  intros [-> | [[sx ->] | [-> | (mx & ex & ->)]]]
         [-> | [[sy ->] | [-> | (my & ey & ->)]]]; cbn [SFmul xorb];
    unfold nonneg_shape; eauto 6.
  apply signed_like_nonneg, binary_round_aux_signed.
Qed.

Lemma binary_normalize_nonneg (n e : Z) :
  0 <= n -> signed_like false (binary_normalize prec emax n e false).
Proof.
  intro Hn. destruct n as [ | p | p ]; [| | lia].
  - right. left. reflexivity.
  - cbn [binary_normalize]. unfold binary_round.
    destruct (shl_align p e _) as [mz ez]. apply binary_round_aux_signed.
Qed.

Lemma SFadd_nonneg (x y : spec_float) :
  nonneg_shape x -> nonneg_shape y -> nonneg_shape (SFadd prec emax x y).
Proof.
  intros [-> | [[sx ->] | [-> | (mx & ex & ->)]]]
         [-> | [[sy ->] | [-> | (my & ey & ->)]]]; cbn [SFadd];
    unfold nonneg_shape; eauto 6.
  - destruct sx, sy; eauto 6.
  - apply signed_like_nonneg, binary_normalize_nonneg. cbn [cond_Zopp]. lia.
Qed.

Lemma float_mul_nonneg (x y : float) :
  not_negative (PyFloat x) = true -> not_negative (PyFloat y) = true ->
  not_negative (PyFloat (x * y)) = true.
Proof.
  rewrite !not_negative_float, FloatAxioms.mul_spec. apply SFmul_nonneg.
Qed.

Lemma float_add_nonneg (x y : float) :
  not_negative (PyFloat x) = true -> not_negative (PyFloat y) = true ->
  not_negative (PyFloat (x + y)) = true.
Proof.
  rewrite !not_negative_float, FloatAxioms.add_spec. apply SFadd_nonneg.
Qed.

(** [float(n)] of a non-negative [int] is not negative. *)
Lemma SF2Prim_nonneg (x : spec_float) :
  signed_like false x -> nonneg_shape (Prim2SF (SF2Prim x)).
Proof.
  intros [-> | [-> | [-> | (m & e & ->)]]].
  - vm_compute. auto.
  - vm_compute. eauto.
  - vm_compute. auto 6.
  - cbn [SF2Prim]. rewrite Z_ldexp_spec, of_uint63_spec.
    pose proof (Uint63.to_Z_bounded (Uint63Axioms.of_Z (Z.pos m))) as [Hm _].
    destruct (binary_normalize_nonneg 0 Hm) as [-> | [-> | [-> | (m' & e' & ->)]]];
      cbn [SFldexp]; unfold nonneg_shape; eauto 6.
    apply signed_like_nonneg. unfold binary_round.
    destruct (shl_align m' (e' + e) _) as [mz ez]. apply binary_round_aux_signed.
Qed.

Lemma int_to_float_nonneg (n : Z) (y : float) :
  0 <= n -> int_to_float n = Returns y -> not_negative (PyFloat y) = true.
Proof.
  intros Hn. unfold int_to_float, checked.
  pose proof (binary_normalize_nonneg 0 Hn) as Hs.
  destruct (binary_normalize prec emax n 0 false) eqn:E; try discriminate;
    intro Hy; injection Hy as <-; apply not_negative_float;
    exact (SF2Prim_nonneg Hs).
Qed.

End FloatSigns.

(** ** [float(n)] for an [int] *)

Section IntToFloat.

Local Open Scope Z_scope.

Lemma digits2_pos_bounds (p : positive) :
  2 ^ (Zpos (digits2_pos p) - 1) <= Zpos p < 2 ^ Zpos (digits2_pos p).
Proof.
  induction p as [p IH | p IH | ]; cbn [digits2_pos];
    [ | | cbn; lia ];
    rewrite Pos2Z.inj_succ;
    replace (Z.succ (Zpos (digits2_pos p)) - 1)
      with (Z.succ (Zpos (digits2_pos p) - 1)) by lia;
    rewrite !Z.pow_succ_r by lia; lia.
Qed.

Lemma digits2_pos_at_least (p : positive) (k : Z) :
  2 ^ (k - 1) <= Zpos p -> k <= Zpos (digits2_pos p).
Proof.
  intro Hk. destruct (digits2_pos_bounds p) as [_ Hd].
  destruct (Z_le_gt_dec k (Zpos (digits2_pos p))) as [ | Hgt]; [assumption|].
  pose proof (Z.pow_le_mono_r 2 (Zpos (digits2_pos p)) (k - 1)). lia.
Qed.

Lemma digits2_pos_at_most (p : positive) (k : Z) :
  Zpos p < 2 ^ k -> Zpos (digits2_pos p) <= k.
Proof.
  intro Hk. destruct (digits2_pos_bounds p) as [Hd _].
  destruct (Z_le_gt_dec (Zpos (digits2_pos p)) k) as [ | Hgt]; [assumption|].
  pose proof (Z.pow_le_mono_r 2 k (Zpos (digits2_pos p) - 1)). lia.
Qed.

Lemma digits2_pos_iter_xO (p k : positive) :
  Zpos (digits2_pos (Pos.iter xO p k)) = Zpos (digits2_pos p) + Zpos k.
Proof.
  induction k as [ | k IH] using Pos.peano_ind.
  - cbn. lia.
  - rewrite Pos.iter_succ. cbn [digits2_pos]. lia.
Qed.

Lemma shr_1_halves (mrs : shr_record) :
  0 <= shr_m mrs -> shr_m (shr_1 mrs) = shr_m mrs / 2.
Proof.
  destruct mrs as [m r s]. cbn [shr_m shr_1].
  destruct m as [ | [p | p | ] | p ]; cbn [shr_m]; intro; try lia;
    try reflexivity.
  - apply Z.div_unique with 1; lia.
  - apply Z.div_unique with 0; lia.
Qed.

Lemma iter_shr_1_divides (n : positive) (mrs : shr_record) :
  0 <= shr_m mrs ->
  shr_m (iter_pos shr_1 n mrs) = shr_m mrs / 2 ^ Zpos n.
Proof.
  revert mrs. induction n as [n IH | n IH | ]; intros mrs Hm; cbn [iter_pos].
  - pose proof (shr_1_nonneg mrs Hm) as H1.
    assert (H2 : 0 <= shr_m (iter_pos shr_1 n (shr_1 mrs)))
      by now apply (iter_pos_preserves (fun r => 0 <= shr_m r) shr_1 shr_1_nonneg).
    rewrite IH, IH, shr_1_halves by assumption.
    rewrite !Z.div_div by lia. f_equal.
    replace (Zpos n~1) with (Zpos n + Zpos n + 1) by lia.
    rewrite !Z.pow_add_r by lia. change (2 ^ 1) with 2. ring.
  - assert (H1 : 0 <= shr_m (iter_pos shr_1 n mrs))
      by now apply (iter_pos_preserves (fun r => 0 <= shr_m r) shr_1 shr_1_nonneg).
    rewrite IH, IH by assumption.
    rewrite !Z.div_div by lia. f_equal.
    replace (Zpos n~0) with (Zpos n + Zpos n) by lia.
    rewrite !Z.pow_add_r by lia. ring.
  - rewrite shr_1_halves by assumption. reflexivity.
Qed.

(** A mantissa of at least 53 digits, at an exponent that cannot underflow,
    is cut to exactly 53 digits. *)
Lemma shr_fexp_normal (m : positive) (e : Z) (l : location) :
  53 <= Zpos (digits2_pos m) -> -1074 <= e ->
  2 ^ 52 <= shr_m (fst (shr_fexp prec emax (Zpos m) e l)) < 2 ^ 53 /\
  snd (shr_fexp prec emax (Zpos m) e l) = e + (Zpos (digits2_pos m) - 53).
Proof.
  intros Hd He. unfold shr_fexp, shr. cbn [Zdigits2].
  change (fexp prec emax ?x) with (Z.max (x - 53) (-1074)).
  pose proof (digits2_pos_bounds m) as Hm.
  set (d := Zpos (digits2_pos m)) in *.
  replace (Z.max (d + e - 53) (-1074) - e) with (d - 53) by lia.
  assert (H0 : shr_m (shr_record_of_loc (Zpos m) l) = Zpos m)
    by (destruct l as [ | [ | | ]]; reflexivity).
  destruct (d - 53) as [ | n | n ] eqn:En; cbn [fst snd]; try lia.
  - rewrite H0. replace d with 53 in Hm by lia. split; [exact Hm | lia].
  - rewrite iter_shr_1_divides, H0 by (rewrite H0; lia).
    replace d with (53 + Zpos n) in Hm by lia.
    replace (53 + Zpos n - 1) with (52 + Zpos n) in Hm by lia.
    rewrite !Z.pow_add_r in Hm by lia.
    assert (0 < 2 ^ Zpos n) by (apply Z.pow_pos_nonneg; lia).
    split; [split | reflexivity].
    + apply Z.div_le_lower_bound; lia.
    + apply Z.div_lt_upper_bound; lia.
Qed.

Lemma round_nearest_even_step (m : Z) (l : location) :
  m <= round_nearest_even m l <= m + 1.
Proof.
  destruct l as [ | [ | | ]]; cbn; try lia. destruct (Z.even m); lia.
Qed.

(** Rounding such a mantissa gives a valid binary64 number, or overflows
    when the value has more than 1023 binary digits before the point: never
    zero, never NaN. *)
Lemma binary_round_aux_normal (s : bool) (m : positive) (e : Z) (l : location) :
  53 <= Zpos (digits2_pos m) -> -1074 <= e ->
  (binary_round_aux prec emax s (Zpos m) e l = S754_infinity s /\
   1023 < Zpos (digits2_pos m) + e) \/
  exists m' e',
    binary_round_aux prec emax s (Zpos m) e l = S754_finite s m' e' /\
    bounded prec emax m' e' = true.
Proof.
  intros Hd He. unfold binary_round_aux.
  destruct (@shr_fexp_normal m e l Hd He) as [H1 He'].
  destruct (shr_fexp prec emax (Zpos m) e l) as [mrs' e'].
  cbn [fst snd] in H1, He'.
  pose proof (round_nearest_even_step (shr_m mrs') (loc_of_shr_record mrs')) as Hr.
  destruct (round_nearest_even (shr_m mrs') (loc_of_shr_record mrs'))
    as [ | p | p ]; try lia.
  assert (Hp : 53 <= Zpos (digits2_pos p)) by (apply digits2_pos_at_least; lia).
  assert (Hp' : Zpos (digits2_pos p) <= 54).
  { apply digits2_pos_at_most. change (2 ^ 54) with (2 * 2 ^ 53). lia. }
  assert (He1 : -1074 <= e') by lia.
  destruct (@shr_fexp_normal p e' loc_Exact Hp He1) as [H2 He''].
  destruct (shr_fexp prec emax (Zpos p) e' loc_Exact) as [mrs'' e''].
  cbn [fst snd] in H2, He''.
  destruct (shr_m mrs'') as [ | q | q ]; try lia.
  destruct (e'' <=? emax - prec) eqn:Hle; [right | left].
  - exists q, e''. split; [reflexivity|].
    unfold bounded, canonical_mantissa. rewrite Hle, andb_true_r.
    change (fexp prec emax ?x) with (Z.max (x - 53) (-1074)).
    assert (Zpos (digits2_pos q) = 53).
    { apply Z.le_antisymm;
        [apply digits2_pos_at_most | apply digits2_pos_at_least]; lia. }
    apply Z.eqb_eq. lia.
  - split; [reflexivity|]. apply Z.leb_gt in Hle.
    change (emax - prec) with 971 in Hle. lia.
Qed.

(** [float(n)] of a non-zero [int]: a valid float, or an overflow when
    [abs(n) >= 2 ** 1023]. *)
Lemma binary_normalize_int (n : Z) :
  n <> 0 ->
  ((exists s, binary_normalize prec emax n 0 false = S754_infinity s) /\
   2 ^ 1023 <= Z.abs n) \/
  exists s m e,
    binary_normalize prec emax n 0 false = S754_finite s m e /\
    bounded prec emax m e = true.
Proof.
  assert (H : forall s p,
             (binary_round prec emax s p 0 = S754_infinity s /\
              1023 < Zpos (digits2_pos p)) \/
             exists m e, binary_round prec emax s p 0 = S754_finite s m e /\
                         bounded prec emax m e = true).
  { intros s p. unfold binary_round, shl_align.
    change (fexp prec emax ?x) with (Z.max (x - 53) (-1074)).
    pose proof (Pos2Z.is_pos (digits2_pos p)) as Hd.
    destruct (Z.max (Zpos (digits2_pos p) + 0 - 53) (-1074) - 0)
      as [ | k | k ] eqn:Ek.
    - destruct (@binary_round_aux_normal s p 0 loc_Exact) as [[E D] | R];
        [lia | lia | left; split; [exact E | lia] | now right].
    - destruct (@binary_round_aux_normal s p 0 loc_Exact) as [[E D] | R];
        [lia | lia | left; split; [exact E | lia] | now right].
    - destruct (@binary_round_aux_normal s (Pos.iter xO p k)
                  (Z.max (Zpos (digits2_pos p) + 0 - 53) (-1074)) loc_Exact)
        as [[E D] | R];
        [rewrite digits2_pos_iter_xO; lia | lia | | now right].
      rewrite digits2_pos_iter_xO in D. lia. }
  assert (B : forall p, 1023 < Zpos (digits2_pos p) -> 2 ^ 1023 <= Zpos p).
  { intros p Hp. destruct (digits2_pos_bounds p) as [Hlo _].
    pose proof (Z.pow_le_mono_r 2 1023 (Zpos (digits2_pos p) - 1)). lia. }
  intro Hn. destruct n as [ | p | p ]; [congruence | | ]; cbn [binary_normalize].
  - destruct (H false p) as [[-> D] | (m & e & -> & Hb)]; [left | eauto 6].
    split; [eauto | now apply B].
  - destruct (H true p) as [[-> D] | (m & e & -> & Hb)]; [left | eauto 6].
    split; [eauto | now apply B].
Qed.

Lemma int_to_float_nonzero (n : Z) (y : float) :
  n <> 0 -> int_to_float n = Returns y -> PrimFloat.eqb y 0 = false.
Proof.
  intros Hn. unfold int_to_float, checked.
  destruct (@binary_normalize_int n Hn)
    as [[(s & ->) _] | (s & m & e & -> & Hb)]; [discriminate|].
  intro Hy.
  assert (E : y = SF2Prim (S754_finite s m e)) by (now injection Hy).
  rewrite E, eqb_spec, Prim2SF_SF2Prim by exact Hb.
  change (Prim2SF 0) with (S754_zero false). now destruct s.
Qed.

(** [float(n)] raises nothing below [2 ** 1023]. *)
Lemma int_to_float_returns (n : Z) :
  Z.abs n < 2 ^ 1023 -> exists y, int_to_float n = Returns y.
Proof.
  intro Hn. unfold int_to_float, checked.
  destruct (Z.eq_dec n 0) as [-> | Hn0]; [cbn; eauto|].
  destruct (@binary_normalize_int n Hn0)
    as [[_ Hbig] | (s & m & e & -> & _)]; [lia | eauto].
Qed.

Lemma eq_zero_false_float (w : float) :
  CPython.eq (PyFloat w) (PyInt 0) = false -> PrimFloat.eqb w 0 = false.
Proof.
  unfold CPython.eq. cbn. rewrite eqb_spec.
  change (Prim2SF 0) with (S754_zero false).
  destruct (Prim2SF w) as [s | s | | s m e]; cbn; try congruence;
    destruct s; reflexivity.
Qed.

End IntToFloat.

(** ** The order of floats and the sign of a difference *)

Section FloatOrder.

Local Open Scope Z_scope.



















End FloatOrder.

(** ** The levers at their end points, on floats *)

Section LeverEndpoints.

Lemma SFcompare_refl (x : spec_float) :
  x <> S754_nan -> SFcompare x x = Some Eq.
Proof.
  destruct x as [s | s | | s m e]; intro H; try congruence.
  - reflexivity.
  - destruct s; reflexivity.
  - assert (Hm : Pos.compare_cont Eq m m = Eq) by apply Pos.compare_refl.
    unfold SFcompare. destruct s; rewrite Z.compare_refl; f_equal;
      change (PosDef.Pos.compare_cont Eq m m) with (Pos.compare_cont Eq m m);
      now rewrite Hm.
Qed.

Lemma finite_shape (x : float) :
  finite x = true ->
  (exists s, Prim2SF x = S754_zero s) \/ exists s m e, Prim2SF x = S754_finite s m e.
Proof.
  unfold finite. destruct (Prim2SF x) as [s | s | | s m e]; try discriminate; eauto.
Qed.

(** [x * 0.0] is a zero for a finite [x]. *)
Lemma float_mul_zero (x : float) :
  finite x = true -> exists s, Prim2SF (x * 0)%float = S754_zero s.
Proof.
  intros [[s Hx] | (s & m & e & Hx)]%finite_shape;
    exists s; rewrite FloatAxioms.mul_spec, Prim2SF_zero, Hx; cbn;
    now rewrite xorb_false_r.
Qed.

(** A zero times a finite positive constant is a zero. *)
Lemma zero_mul_const (z c : float) (s : bool) (m : positive) (e : Z) :
  Prim2SF z = S754_zero s -> Prim2SF c = S754_finite false m e ->
  Prim2SF (z * c)%float = S754_zero s.
Proof.
  intros Hz Hc. rewrite FloatAxioms.mul_spec, Hz, Hc. cbn. now rewrite xorb_false_r.
Qed.

Lemma eq_zero_of_shape (z : float) (s : bool) :
  Prim2SF z = S754_zero s -> CPython.eq (PyFloat z) (PyInt 0) = true.
Proof. intro Hz. unfold CPython.eq. cbn [compare]. now rewrite Hz. Qed.

(** A finite float times a finite positive constant is not a NaN. *)
Lemma finite_mul_const_not_nan (x c : float) (m : positive) (e : Z) :
  finite x = true -> Prim2SF c = S754_finite false m e ->
  Prim2SF (x * c)%float <> S754_nan.
Proof.
  intros Hx Hc. rewrite FloatAxioms.mul_spec, Hc.
  destruct (finite_shape _ Hx) as [[s ->] | (s & mx & ex & ->)]; cbn [SF64mul SFmul].
  - discriminate.
  - destruct (@binary_round_aux_rounded (xorb s false) (Z.pos (mx * m)) (ex + e) loc_Exact)
      as [-> | [-> | (m' & e' & ->)]]; [lia | discriminate ..].
Qed.

(** [y + z == y] when [z] is a zero and [y] is not a NaN. *)
Lemma add_zero_equal (y z : float) (s : bool) :
  Prim2SF z = S754_zero s -> Prim2SF y <> S754_nan ->
  CPython.eq (PyFloat (y + z)) (PyFloat y) = true.
Proof.
  intros Hz Hy. unfold CPython.eq. cbn [compare].
  rewrite FloatAxioms.add_spec, Hz.
  destruct (Prim2SF y) as [sy | sy | | sy my ey] eqn:E; cbn [SF64add SFadd];
    try congruence.
  - destruct sy, s; reflexivity.
  - destruct sy; reflexivity.
  - now rewrite SFcompare_refl.
Qed.

(** [z + y == y] when [z] is a zero and [y] is not a NaN. *)
Lemma zero_add_equal (y z : float) (s : bool) :
  Prim2SF z = S754_zero s -> Prim2SF y <> S754_nan ->
  CPython.eq (PyFloat (z + y)) (PyFloat y) = true.
Proof.
  intros Hz Hy. unfold CPython.eq. cbn [compare].
  rewrite FloatAxioms.add_spec, Hz.
  destruct (Prim2SF y) as [sy | sy | | sy my ey] eqn:E; cbn [SF64add SFadd];
    try congruence.
  - destruct sy, s; reflexivity.
  - destruct sy; reflexivity.
  - now rewrite SFcompare_refl.
Qed.

Lemma literal_shapes :
  (exists m e, Prim2SF (literal 0.82) = S754_finite false m e) /\
  (exists m e, Prim2SF (literal 0.02) = S754_finite false m e).
Proof. split; eexists _, _; vm_compute; reflexivity. Qed.



Lemma renewable_at_0 (kwh : float) :
  finite kwh = true ->
  exists total renewable,
    simulate_renewable_energy (PyFloat kwh) (PyInt 0) =
      Returns [ ("total"%string, PyFloat total);
                ("grid"%string, PyFloat (kwh * literal 0.82));
                ("renewable"%string, PyFloat renewable) ] /\
    electricity_emissions (PyFloat kwh) = Returns (PyFloat (kwh * literal 0.82)) /\
    CPython.eq (PyFloat renewable) (PyInt 0) = true /\
    CPython.eq (PyFloat total) (PyFloat (kwh * literal 0.82)) = true.
Proof.
  intro Hk.
  exists (kwh * literal 0.82 + kwh * 0 * literal 0.02)%float,
         (kwh * 0 * literal 0.02)%float.
  destruct literal_shapes as ((m1 & e1 & L1) & (m2 & e2 & L2)).
  destruct (float_mul_zero _ Hk) as [s Hs].
  pose proof (zero_mul_const _ _ Hs L2) as Hr.
  split.
  - transitivity
      (Returns [ ("total"%string,
                  PyFloat (kwh * 1 * literal 0.82 + kwh * 0 * literal 0.02));
                 ("grid"%string, PyFloat (kwh * 1 * literal 0.82));
                 ("renewable"%string, PyFloat (kwh * 0 * literal 0.02)) ]);
      [reflexivity|].
    now rewrite float_mul_one.
  - split; [reflexivity|]. split; [now apply eq_zero_of_shape with s|].
    apply add_zero_equal with s; [exact Hr|].
    now apply finite_mul_const_not_nan with m1 e1.
Qed.

Lemma renewable_at_100 (kwh : float) :
  finite kwh = true ->
  exists total grid,
    simulate_renewable_energy (PyFloat kwh) (PyInt 100) =
      Returns [ ("total"%string, PyFloat total);
                ("grid"%string, PyFloat grid);
                ("renewable"%string, PyFloat (kwh * literal 0.02)) ] /\
    CPython.eq (PyFloat grid) (PyInt 0) = true /\
    CPython.eq (PyFloat total) (PyFloat (kwh * literal 0.02)) = true.
Proof.
  intro Hk.
  exists (kwh * 0 * literal 0.82 + kwh * literal 0.02)%float,
         (kwh * 0 * literal 0.82)%float.
  destruct literal_shapes as ((m1 & e1 & L1) & (m2 & e2 & L2)).
  destruct (float_mul_zero _ Hk) as [s Hs].
  pose proof (zero_mul_const _ _ Hs L1) as Hg.
  split.
  - transitivity
      (Returns [ ("total"%string,
                  PyFloat (kwh * 0 * literal 0.82 + kwh * 1 * literal 0.02));
                 ("grid"%string, PyFloat (kwh * 0 * literal 0.82));
                 ("renewable"%string, PyFloat (kwh * 1 * literal 0.02)) ]);
      [reflexivity|].
    now rewrite float_mul_one.
  - split; [now apply eq_zero_of_shape with s|].
    apply zero_add_equal with s; [exact Hg|].
    now apply finite_mul_const_not_nan with m2 e2.
Qed.

End LeverEndpoints.

(** * The claims *)

Local Open Scope Q_scope.




(** C2.  [per_capita_emissions(T, 0)] returns [0] for every [T] and does
    not raise; for every worker count [W > 0] it returns exactly [T / W]. *)
Theorem per_capita_emissions_contract :
  (forall T : Q, per_capita_emissions T 0 = Returns 0) /\
  (forall T W : Q, 0 < W -> per_capita_emissions T W = Returns (T / W)) /\
  (forall T : PyVal, per_capita_emissions T (PyInt 0) = Returns (PyInt 0)) /\
  (forall T W : PyVal,
      CPython.eq W (PyInt 0) = true ->
      per_capita_emissions T W = Returns (PyInt 0)) /\
  (forall T W : PyVal,
      CPython.lt (PyInt 0) W = true ->
      per_capita_emissions T W = truediv T W) /\
  (forall T W : float,
      CPython.lt (PyInt 0) (PyFloat W) = true ->
      per_capita_emissions (PyFloat T) (PyFloat W) = Returns (PyFloat (T / W))).
Proof.
  split; [intro T; now apply exact_per_capita_zero|].
  split; [exact exact_per_capita_pos|].
  split; [intro T; now apply cpython_per_capita_zero|].
  split; [exact cpython_per_capita_zero|].
  split; [exact cpython_per_capita_pos | exact cpython_per_capita_float].
Qed.

Lemma per_capita_emissions_contract_witness :
  (0 < 500 /\
   per_capita_emissions 869000 500 = Returns (869000 / 500)) /\
  (CPython.eq (PyFloat 0) (PyInt 0) = true /\
   per_capita_emissions (PyFloat 869000) (PyFloat 0) = Returns (PyInt 0)) /\
  (CPython.lt (PyInt 0) (PyInt 500) = true /\
   per_capita_emissions (PyFloat 869000) (PyInt 500) =
     truediv (PyFloat 869000) (PyInt 500)) /\
  (CPython.lt (PyInt 0) (PyFloat 500) = true /\
   per_capita_emissions (PyFloat 869000) (PyFloat 500) =
     Returns (PyFloat (869000 / 500))).
Proof.
  destruct per_capita_emissions_contract as (_ & Hq & _ & Hz & Hv & Hf).
  split; [split; [reflexivity | apply Hq; reflexivity]|].
  split; [split; [vm_compute; reflexivity | apply Hz; vm_compute; reflexivity]|].
  split; [split; [reflexivity | apply Hv; reflexivity]|].
  split; [vm_compute; reflexivity | apply Hf; vm_compute; reflexivity].
Defined.

(** C3.  [land_required_for_neutrality(gap)] returns [0] when [gap <= 0]
    and [gap / 10000] when [gap > 0]; the result is never negative, and the
    function is continuous at [gap = 0]. *)
Theorem land_required_for_neutrality_piecewise :
  (forall gap : Q, gap <= 0 -> land_required_for_neutrality gap = Returns 0) /\
  (forall gap : Q,
      0 < gap -> land_required_for_neutrality gap = Returns (gap / 10000)) /\
  (forall gap : Q,
      exists r, land_required_for_neutrality gap = Returns r /\ 0 <= r) /\
  (forall eps : Q, 0 < eps ->
      exists delta, 0 < delta /\
        forall gap r, Qabs (gap - 0) < delta ->
          land_required_for_neutrality gap = Returns r ->
          yields (land_required_for_neutrality 0) 0 /\ Qabs (r - 0) < eps) /\
  (forall gap : PyVal,
      CPython.le gap (PyInt 0) = true ->
      land_required_for_neutrality gap = Returns (PyInt 0)) /\
  (forall gap : PyVal,
      CPython.lt (PyInt 0) gap = true ->
      land_required_for_neutrality gap = truediv gap (PyInt 10000)) /\
  (forall gap : float,
      CPython.lt (PyInt 0) (PyFloat gap) = true ->
      land_required_for_neutrality (PyFloat gap) =
        Returns (PyFloat (gap / 10000))) /\
  (forall gap : float,
      exists r, land_required_for_neutrality (PyFloat gap) = Returns r /\
                CPython.lt r (PyInt 0) = false).
Proof.
  split; [exact exact_land_required_nonpos|].
  split; [exact exact_land_required_pos|].
  split; [exact exact_land_required_total|].
  split; [exact exact_land_required_continuous_at_0|].
  split; [exact cpython_land_required_nonpos|].
  split; [|split; [|exact cpython_land_required_never_negative]].
  - intros gap Hgap. unfold land_required_for_neutrality.
    change (py_le gap (int_lit 0)) with (CPython.le gap (PyInt 0)).
    now rewrite (lt_zero_not_le _ Hgap).
  - intros gap Hgap. apply cpython_land_required_else.
    now apply lt_zero_not_le.
Qed.

Lemma land_required_for_neutrality_piecewise_witness :
  (-5 <= 0 /\ land_required_for_neutrality (-5) = Returns 0) /\
  (0 < 747000 /\
   land_required_for_neutrality 747000 = Returns (747000 / 10000)) /\
  (0 < 1 /\ exists delta, 0 < delta /\
     forall gap r, Qabs (gap - 0) < delta ->
       land_required_for_neutrality gap = Returns r ->
       yields (land_required_for_neutrality 0) 0 /\ Qabs (r - 0) < 1) /\
  (CPython.le (PyFloat (-5)) (PyInt 0) = true /\
   land_required_for_neutrality (PyFloat (-5)) = Returns (PyInt 0)) /\
  (CPython.lt (PyInt 0) (PyInt 747000) = true /\
   land_required_for_neutrality (PyInt 747000) =
     truediv (PyInt 747000) (PyInt 10000)) /\
  (CPython.lt (PyInt 0) (PyFloat 747000) = true /\
   land_required_for_neutrality (PyFloat 747000) =
     Returns (PyFloat (747000 / 10000))).
Proof.
  destruct land_required_for_neutrality_piecewise
    as (Hneg & Hpos & _ & Hcont & Hle & Hgt & Hlt & _).
  split; [split; [discriminate | apply Hneg; discriminate]|].
  split; [split; [reflexivity | apply Hpos; reflexivity]|].
  split; [split; [reflexivity | apply Hcont; reflexivity]|].
  split; [split; [vm_compute; reflexivity | apply Hle; vm_compute; reflexivity]|].
  split; [split; [reflexivity | apply Hgt; reflexivity]|].
  split; [vm_compute; reflexivity | apply Hlt; vm_compute; reflexivity].
Defined.

(** C4.  [calculate_carbon_credits(g)] returns [0] when [g <= 0] and
    [g * 15], the gap times the carbon credit price, when [g > 0]. *)
Theorem calculate_carbon_credits_piecewise :
  (forall g : Q, g <= 0 -> calculate_carbon_credits g = Returns 0) /\
  (forall g : Q, 0 < g -> calculate_carbon_credits g = Returns (g * 15)) /\
  (forall g : PyVal,
      CPython.le g (PyInt 0) = true ->
      calculate_carbon_credits g = Returns (PyInt 0)) /\
  (forall g : PyVal,
      CPython.lt (PyInt 0) g = true ->
      calculate_carbon_credits g = mul g (PyInt 15)) /\
  (forall g : float,
      CPython.lt (PyInt 0) (PyFloat g) = true ->
      calculate_carbon_credits (PyFloat g) = Returns (PyFloat (g * 15))).
Proof.
  split; [exact exact_credits_nonpos|].
  split; [exact exact_credits_pos|].
  split; [exact cpython_credits_nonpos|].
  split; [|exact cpython_credits_pos].
  intros g Hg. unfold calculate_carbon_credits.
  change (py_le g (int_lit 0)) with (CPython.le g (PyInt 0)).
  now rewrite (lt_zero_not_le _ Hg).
Qed.

Lemma calculate_carbon_credits_piecewise_witness :
  (-3 <= 0 /\ calculate_carbon_credits (-3) = Returns 0) /\
  (0 < 262.8 /\ calculate_carbon_credits 262.8 = Returns (262.8 * 15)) /\
  (CPython.le (PyFloat (-3)) (PyInt 0) = true /\
   calculate_carbon_credits (PyFloat (-3)) = Returns (PyInt 0)) /\
  (CPython.lt (PyInt 0) (PyInt 7) = true /\
   calculate_carbon_credits (PyInt 7) = mul (PyInt 7) (PyInt 15)) /\
  (CPython.lt (PyInt 0) (PyFloat 262) = true /\
   calculate_carbon_credits (PyFloat 262) = Returns (PyFloat (262 * 15))).
Proof.
  destruct calculate_carbon_credits_piecewise as (Hneg & Hpos & Hle & Hlt & Hf).
  split; [split; [discriminate | apply Hneg; discriminate]|].
  split; [split; [reflexivity | apply Hpos; reflexivity]|].
  split; [split; [vm_compute; reflexivity | apply Hle; vm_compute; reflexivity]|].
  split; [split; [reflexivity | apply Hlt; reflexivity]|].
  split; [vm_compute; reflexivity | apply Hf; vm_compute; reflexivity].
Defined.

(** C5.  [simulate_renewable_energy(kwh, pct)] returns a dictionary whose
    [grid] entry is [kwh * (100 - pct) / 100 * 0.82], whose [renewable]
    entry is [kwh * pct / 100 * 0.02] and whose [total] entry is their sum.
    Under CPython the products are taken in the order the source writes
    them: [kwh * ((100 - pct) / 100) * 0.82] and [kwh * (pct / 100) * 0.02]. *)
Theorem simulate_renewable_energy_breakdown :
  (forall kwh pct : Q,
      exists total grid renewable,
        simulate_renewable_energy kwh pct =
          Returns [ ("total"%string, total); ("grid"%string, grid);
                    ("renewable"%string, renewable) ] /\
        grid == kwh * (100 - pct) / 100 * 0.82 /\
        renewable == kwh * pct / 100 * 0.02 /\
        total == grid + renewable) /\
  (forall kwh pct : float,
      let grid := (kwh * ((100 - pct) / 100) * literal 0.82)%float in
      let renewable := (kwh * (pct / 100) * literal 0.02)%float in
      simulate_renewable_energy (PyFloat kwh) (PyFloat pct) =
        Returns [ ("total"%string, PyFloat (grid + renewable));
                  ("grid"%string, PyFloat grid);
                  ("renewable"%string, PyFloat renewable) ]).
Proof.
  split; [exact exact_renewable_breakdown|].
  intros kwh pct. reflexivity.
Qed.

(** C6.  Scenario example 1: with diesel = 50000 L, electricity = 500000 kWh,
    coal = 100000 t, distance = 50 km, workers = 500, plantation = 10 ha and
    trees = 1000, the calculator returns diesel 134000 kg, electricity
    410000 kg, excavation 15000 kg, transport 310000 kg, total 869000 kg,
    absorption 122000 kg, gap 747.0 t, per capita 1738.0 kg/person and
    74.7 ha of land for a gap of 747000 kg -- in exact arithmetic and, to
    the last bit, under CPython. *)
Theorem scenario_1_current_state :
  scenario_1 yields /\ scenario_1 gives.
Proof.
  split.
  - unfold scenario_1, yields. repeat split; vm_compute; reflexivity.
  - unfold scenario_1, gives. repeat split; vm_compute; reflexivity.
Qed.

(** C7.  Scenario example 2: from scenario 1, [combined_simulation] with
    electrification 30 %, renewables 50 %, 20 added hectares and 2000 added
    trees returns diesel 93800 kg, electricity 210000 kg (grid 205000 kg
    plus renewable 5000 kg) and absorption 366000 kg; adding back excavation
    and transport gives a total of 628800 kg and a gap of 262.8 t, and
    [calculate_carbon_credits(262.8)] is 3942 USD -- in exact arithmetic
    and, to the last bit, under CPython. *)
Theorem scenario_2_combined_simulation :
  scenario_2 yields /\ scenario_2 gives.
Proof.
  split.
  - unfold scenario_2, yields. repeat split; vm_compute; reflexivity.
  - unfold scenario_2, gives. repeat split; vm_compute; reflexivity.
Qed.








Lemma cpython_renewable_total (kwh pct : float) :
  renewable_total (PyFloat kwh) (PyFloat pct)
  = Returns (PyFloat (kwh * ((100 - pct) / 100) * literal 0.82
                      + kwh * (pct / 100) * literal 0.02)).
Proof. reflexivity. Qed.

Lemma cpython_renewable_ends (kwh : float) :
  finite kwh = true ->
  equal_to (renewable_total (PyFloat kwh) (PyInt 0))
           (PyFloat (kwh * literal 0.82)) = true /\
  equal_to (renewable_total (PyFloat kwh) (PyInt 100))
           (PyFloat (kwh * literal 0.02)) = true.
Proof.
  intro Hk. unfold renewable_total. split.
  - destruct (renewable_at_0 _ Hk) as (total & renewable & -> & _ & _ & Ht).
    exact Ht.
  - destruct (renewable_at_100 _ Hk) as (total & grid & -> & _ & Ht).
    exact Ht.
Qed.

(** C10, refuted as stated.  On floats the total is not monotone: at
    [kwh = 1000.0], going from [pct = 47.90000000000006] to the next float
    [47.90000000000007], both inside [0, 100], the total rises from
    [436.7999999999994] to [436.79999999999944]. *)
Lemma renewable_total_rises_between_adjacent_floats :
  CPython.le (PyInt 0) (PyFloat 0x1.7f3333333333cp+5) = true /\
  CPython.lt (PyFloat 0x1.7f3333333333cp+5) (PyFloat 0x1.7f3333333333dp+5)
    = true /\
  CPython.le (PyFloat 0x1.7f3333333333dp+5) (PyInt 100) = true /\
  renewable_total (PyFloat 1000) (PyFloat 0x1.7f3333333333cp+5)
    = Returns (PyFloat 0x1.b4cccccccccc2p+8) /\
  renewable_total (PyFloat 1000) (PyFloat 0x1.7f3333333333dp+5)
    = Returns (PyFloat 0x1.b4cccccccccc3p+8) /\
  CPython.lt (PyFloat 0x1.b4cccccccccc2p+8) (PyFloat 0x1.b4cccccccccc3p+8)
    = true.
Proof. repeat split; vm_compute; reflexivity. Qed.

(** C10, as amended.  In exact arithmetic (reading [0.82] and [0.02] as
    decimal numbers), for every [kwh >= 0] and every percentage in
    [0, 100], the [total] of [simulate_renewable_energy] is at most
    [electricity_emissions(kwh)] and at least [kwh * 0.02], and it does not
    increase with the percentage.  For all floats the total is
    [kwh * ((100 - pct) / 100) * 0.82 + kwh * (pct / 100) * 0.02] with every
    operation rounded; for every finite float [kwh] it is equal to
    [electricity_emissions(kwh)] at [pct = 0] and to [kwh * 0.02] at
    [pct = 100]; and at [kwh = 500000.0] both bounds hold at every integer
    percentage from 0 to 100 and no step from one integer percentage to the
    next increases the total.  Between neighbouring float percentages the
    rounded total can rise by one unit in the last place. *)
Theorem renewable_lever_never_increases :
  (forall kwh pct : Q, 0 <= kwh -> 0 <= pct <= 100 ->
      exists t e,
        renewable_total kwh pct = Returns t /\
        electricity_emissions kwh = Returns e /\
        kwh * 0.02 <= t <= e) /\
  (forall kwh p1 p2 : Q, 0 <= kwh -> 0 <= p1 -> p1 <= p2 -> p2 <= 100 ->
      exists t1 t2,
        renewable_total kwh p1 = Returns t1 /\
        renewable_total kwh p2 = Returns t2 /\
        t2 <= t1) /\
  (forall kwh pct : float,
      renewable_total (PyFloat kwh) (PyFloat pct)
      = Returns (PyFloat (kwh * ((100 - pct) / 100) * literal 0.82
                          + kwh * (pct / 100) * literal 0.02))) /\
  (forall kwh : float, finite kwh = true ->
      electricity_emissions (PyFloat kwh)
        = Returns (PyFloat (kwh * literal 0.82)) /\
      equal_to (renewable_total (PyFloat kwh) (PyInt 0))
               (PyFloat (kwh * literal 0.82)) = true /\
      equal_to (renewable_total (PyFloat kwh) (PyInt 100))
               (PyFloat (kwh * literal 0.02)) = true) /\
  (forall pct : Z, (0 <= pct <= 100)%Z ->
      renewable_within_bounds_at (float_lit 500000) pct = true) /\
  (forall pct : Z, (0 <= pct < 100)%Z ->
      renewable_steps_down_at (float_lit 500000) pct = true).
Proof.
  split; [|split; [|split; [|split; [|split]]]].
  - intros kwh pct Hk Hp. eexists _, _.
    split; [reflexivity|]. split; [reflexivity|].
    now apply (@exact_renewable_bounds kwh pct).
  - intros kwh p1 p2 Hk _ Hp _. eexists _, _.
    split; [reflexivity|]. split; [reflexivity|].
    now apply (@exact_renewable_monotone kwh p1 p2).
  - exact cpython_renewable_total.
  - intros kwh Hk. split; [reflexivity|]. now apply cpython_renewable_ends.
  - intros pct Hpct.
    apply (@Z_range_forallb
             (renewable_within_bounds_at (float_lit 500000)) 0%Z 100%Z);
      [|lia].
    vm_compute. reflexivity.
  - intros pct Hpct.
    apply (@Z_range_forallb
             (renewable_steps_down_at (float_lit 500000)) 0%Z 99%Z);
      [|lia].
    vm_compute. reflexivity.
Qed.

Lemma renewable_lever_never_increases_witness :
  (0 <= 500000 /\ 0 <= 50 <= 100 /\
   exists t e,
     renewable_total 500000 50 = Returns t /\
     electricity_emissions 500000 = Returns e /\
     500000 * 0.02 <= t <= e) /\
  (0 <= 500000 /\ 0 <= 30 /\ 30 <= 50 /\ 50 <= 100 /\
   exists t1 t2,
     renewable_total 500000 30 = Returns t1 /\
     renewable_total 500000 50 = Returns t2 /\
     t2 <= t1) /\
  (finite 500000 = true /\
   equal_to (renewable_total (PyFloat 500000) (PyInt 0))
            (PyFloat (500000 * literal 0.82)) = true /\
   equal_to (renewable_total (PyFloat 500000) (PyInt 100))
            (PyFloat (500000 * literal 0.02)) = true) /\
  ((0 <= 50 <= 100)%Z /\
   renewable_within_bounds_at (float_lit 500000) 50 = true) /\
  ((0 <= 50 < 100)%Z /\
   renewable_steps_down_at (float_lit 500000) 50 = true).
Proof.
  destruct renewable_lever_never_increases as (Hb & Hm & _ & He & Hfb & Hfm).
  split.
  { split; [discriminate|]. split; [split; discriminate|].
    apply Hb; [discriminate | split; discriminate]. }
  split.
  { repeat (split; [discriminate|]). apply Hm; discriminate. }
  split.
  { split; [reflexivity|]. exact (proj2 (He 500000%float eq_refl)). }
  split; [split; [lia | apply Hfb; lia]|].
  split; [lia | apply Hfm; lia].
Defined.

(** * Further properties of the code

    What follows goes beyond the claims: signs, bounds and end points of the
    levers, the composition of the simulations, the shares of the breakdown
    table, the land shown for a gap, and which errors the arithmetic can
    raise. *)

Close Scope Q_scope.

(** ** Signs of the emissions *)

Section EmissionSigns.

Local Open Scope Q_scope.

Lemma literals_not_negative :
  not_negative (PyFloat (literal 2.68)) = true /\
  not_negative (PyFloat (literal 0.82)) = true /\
  not_negative (PyFloat (literal 0.15)) = true /\
  not_negative (PyFloat (literal 0.062)) = true /\
  not_negative (PyFloat (literal 0.02)) = true /\
  not_negative (PyFloat 10000) = true /\
  not_negative (PyFloat 15) = true.
Proof. vm_compute. repeat split. Qed.

(** X1.  Emissions are never negative.  In exact arithmetic, quantities that
    are not negative give four emissions that are not negative, each at most
    their total; and for floats that are not negative every one of the five
    results is a float that is not negative, rounding included. *)
Theorem emissions_never_negative :
  (forall litres kwh coal_tonnes distance_km : Q,
      0 <= litres -> 0 <= kwh -> 0 <= coal_tonnes -> 0 <= distance_km ->
      exists d e x t total,
        diesel_emissions litres = Returns d /\
        electricity_emissions kwh = Returns e /\
        excavation_emissions coal_tonnes = Returns x /\
        transportation_emissions coal_tonnes distance_km = Returns t /\
        total_emissions d e x t = Returns total /\
        0 <= d <= total /\ 0 <= e <= total /\
        0 <= x <= total /\ 0 <= t <= total) /\
  (forall litres kwh coal_tonnes distance_km : float,
      not_negative (PyFloat litres) = true ->
      not_negative (PyFloat kwh) = true ->
      not_negative (PyFloat coal_tonnes) = true ->
      not_negative (PyFloat distance_km) = true ->
      exists d e x t total,
        diesel_emissions (PyFloat litres) = Returns (PyFloat d) /\
        electricity_emissions (PyFloat kwh) = Returns (PyFloat e) /\
        excavation_emissions (PyFloat coal_tonnes) = Returns (PyFloat x) /\
        transportation_emissions (PyFloat coal_tonnes) (PyFloat distance_km)
          = Returns (PyFloat t) /\
        total_emissions (PyFloat d) (PyFloat e) (PyFloat x) (PyFloat t)
          = Returns (PyFloat total) /\
        not_negative (PyFloat d) = true /\ not_negative (PyFloat e) = true /\
        not_negative (PyFloat x) = true /\ not_negative (PyFloat t) = true /\
        not_negative (PyFloat total) = true).
Proof.
  split.
  - intros litres kwh coal_tonnes distance_km Hl Hk Hc Hd.
    eexists _, _, _, _, _. repeat (split; [reflexivity|]).
    cbv [int_lit float_lit Q_number inject_Z
         DIESEL_EMISSION_FACTOR ELECTRICITY_EMISSION_FACTOR
         COAL_EXCAVATION_FACTOR TRANSPORTATION_FACTOR].
    assert (0 <= coal_tonnes * distance_km) by nra.
    repeat split; lra.
  - intros litres kwh coal_tonnes distance_km Hl Hk Hc Hd.
    destruct literals_not_negative as (L1 & L2 & L3 & L4 & _).
    eexists _, _, _, _, _. repeat (split; [reflexivity|]).
    assert (Nd := float_mul_nonneg _ _ Hl L1).
    assert (Ne := float_mul_nonneg _ _ Hk L2).
    assert (Nx := float_mul_nonneg _ _ Hc L3).
    assert (Nt := float_mul_nonneg _ _ (float_mul_nonneg _ _ Hc Hd) L4).
    repeat split; try assumption.
    repeat apply float_add_nonneg; assumption.
Qed.

Lemma emissions_never_negative_witness :
  (0 <= 50000 /\ 0 <= 500000 /\ 0 <= 100000 /\ 0 <= 50 /\
   exists d e x t total,
     diesel_emissions 50000 = Returns d /\
     electricity_emissions 500000 = Returns e /\
     excavation_emissions 100000 = Returns x /\
     transportation_emissions 100000 50 = Returns t /\
     total_emissions d e x t = Returns total /\
     0 <= d <= total /\ 0 <= e <= total /\
     0 <= x <= total /\ 0 <= t <= total) /\
  (not_negative (PyFloat 50000) = true /\
   not_negative (PyFloat 500000) = true /\
   not_negative (PyFloat 100000) = true /\
   not_negative (PyFloat 50) = true /\
   exists d e x t total,
     diesel_emissions (PyFloat 50000) = Returns (PyFloat d) /\
     electricity_emissions (PyFloat 500000) = Returns (PyFloat e) /\
     excavation_emissions (PyFloat 100000) = Returns (PyFloat x) /\
     transportation_emissions (PyFloat 100000) (PyFloat 50)
       = Returns (PyFloat t) /\
     total_emissions (PyFloat d) (PyFloat e) (PyFloat x) (PyFloat t)
       = Returns (PyFloat total) /\
     not_negative (PyFloat d) = true /\ not_negative (PyFloat e) = true /\
     not_negative (PyFloat x) = true /\ not_negative (PyFloat t) = true /\
     not_negative (PyFloat total) = true).
Proof.
  destruct emissions_never_negative as [HQ HF].
  split.
  - split; [discriminate|]. split; [discriminate|].
    split; [discriminate|]. split; [discriminate|].
    apply HQ; discriminate.
  - split; [reflexivity|]. split; [reflexivity|].
    split; [reflexivity|]. split; [reflexivity|].
    apply HF; reflexivity.
Defined.

End EmissionSigns.

(** ** Signs of the absorption *)

Section AbsorptionSigns.

Local Open Scope Q_scope.

Lemma add_zero_twice_equal (c : float) :
  CPython.eq (PyFloat c) (PyFloat c) = true ->
  CPython.eq (PyFloat (c + 0 + 0)) (PyFloat c) = true.
Proof.
  unfold CPython.eq. cbn [compare].
  rewrite !FloatAxioms.add_spec, Prim2SF_zero.
  destruct (Prim2SF c) as [s | s | | s m e]; cbn [SF64add SFadd]; auto.
  destruct s; reflexivity.
Qed.

(** X2.  Absorption is never negative, and afforestation never lowers it.  In
    exact arithmetic, for an area, a tree count and a current absorption
    that are not negative, each part is between zero and the total and
    [simulate_afforestation] returns the current absorption plus that
    total; under CPython, for a float area and current absorption that are
    not negative and an [int] tree count from [0] up to where [float()]
    overflows, both calls return floats that are not negative. *)
Theorem absorption_never_negative :
  (forall area trees current : Q,
      0 <= area -> 0 <= trees -> 0 <= current ->
      exists a t total new,
        carbon_absorption_from_area area = Returns a /\
        carbon_absorption_from_trees trees = Returns t /\
        total_absorption area trees = Returns total /\
        simulate_afforestation current area trees = Returns new /\
        0 <= a <= total /\ 0 <= t <= total /\
        new == current + total /\ current <= new) /\
  (forall (area current : float) (trees : Z),
      not_negative (PyFloat area) = true ->
      not_negative (PyFloat current) = true ->
      (0 <= trees)%Z -> (trees * 22 < 2 ^ 1023)%Z ->
      exists y,
        int_to_float (trees * 22) = Returns y /\
        total_absorption (PyFloat area) (PyInt trees)
          = Returns (PyFloat (area * 10000 + y)) /\
        simulate_afforestation (PyFloat current) (PyFloat area) (PyInt trees)
          = Returns (PyFloat (current + area * 10000 + y)) /\
        not_negative (PyFloat (area * 10000 + y)) = true /\
        not_negative (PyFloat (current + area * 10000 + y)) = true).
Proof.
  split.
  - intros area trees current Ha Ht Hc.
    eexists _, _, _, _. repeat (split; [reflexivity|]).
    cbv [int_lit float_lit Q_number inject_Z
         ABSORPTION_PER_HECTARE ABSORPTION_PER_TREE].
    repeat split; lra.
  - intros area current trees Ha Hc Ht Hbig.
    destruct (@int_to_float_returns (trees * 22)%Z) as [y Hy]; [lia|].
    exists y. split; [exact Hy|].
    assert (Hy' : not_negative (PyFloat y) = true).
    { apply int_to_float_nonneg with (trees * 22)%Z; [lia | exact Hy]. }
    destruct literals_not_negative as (_ & _ & _ & _ & _ & L & _).
    assert (Na := float_mul_nonneg _ _ Ha L).
    split; [|split; [|split]].
    + unfold total_absorption, carbon_absorption_from_area,
        carbon_absorption_from_trees. cbn. unfold float_op. cbn.
      now rewrite Hy.
    + unfold simulate_afforestation, carbon_absorption_from_area,
        carbon_absorption_from_trees. cbn. unfold float_op. cbn.
      now rewrite Hy.
    + now apply float_add_nonneg.
    + apply float_add_nonneg; [|exact Hy']. now apply float_add_nonneg.
Qed.

Lemma absorption_never_negative_witness :
  (0 <= 10 /\ 0 <= 1000 /\ 0 <= 122000 /\
   exists a t total new,
     carbon_absorption_from_area 10 = Returns a /\
     carbon_absorption_from_trees 1000 = Returns t /\
     total_absorption 10 1000 = Returns total /\
     simulate_afforestation 122000 10 1000 = Returns new /\
     0 <= a <= total /\ 0 <= t <= total /\
     new == 122000 + total /\ 122000 <= new) /\
  (not_negative (PyFloat 10) = true /\
   not_negative (PyFloat 122000) = true /\
   (0 <= 1000)%Z /\ (1000 * 22 < 2 ^ 1023)%Z /\
   exists y,
     int_to_float (1000 * 22) = Returns y /\
     total_absorption (PyFloat 10) (PyInt 1000)
       = Returns (PyFloat (10 * 10000 + y)) /\
     simulate_afforestation (PyFloat 122000) (PyFloat 10) (PyInt 1000)
       = Returns (PyFloat (122000 + 10 * 10000 + y)) /\
     not_negative (PyFloat (10 * 10000 + y)) = true /\
     not_negative (PyFloat (122000 + 10 * 10000 + y)) = true).
Proof.
  destruct absorption_never_negative as [HQ HF].
  split.
  - split; [discriminate|]. split; [discriminate|]. split; [discriminate|].
    apply HQ; discriminate.
  - split; [reflexivity|]. split; [reflexivity|].
    split; [discriminate|]. split; [reflexivity|].
    apply HF; [reflexivity | reflexivity | discriminate | reflexivity].
Defined.

End AbsorptionSigns.

(** ** The three levers *)

Section Levers.

Local Open Scope Q_scope.

Ltac exact_consts :=
  cbv [int_lit float_lit Q_number inject_Z
       DIESEL_EMISSION_FACTOR ELECTRICITY_EMISSION_FACTOR
       COAL_EXCAVATION_FACTOR TRANSPORTATION_FACTOR
       ABSORPTION_PER_HECTARE ABSORPTION_PER_TREE
       RENEWABLE_EMISSION_FACTOR CARBON_CREDIT_PRICE KG_TO_TONNES].




(** X4.  The renewable lever at its end points.  In exact arithmetic 0
    percent gives the grid emissions [electricity_emissions(kwh)] and 100
    percent gives [kwh * 0.02], and inside the range both parts of the
    breakdown are not negative; under CPython, for every finite float
    consumption, at 0 percent the grid part is exactly
    [electricity_emissions(kwh)], the renewable part is zero and the total
    equals the grid part, and at 100 percent the grid part is zero and the
    total equals [kwh * 0.02]. *)
Theorem renewable_lever_endpoints :
  (forall kwh : Q,
      exists e, electricity_emissions kwh = Returns e /\
                yields (renewable_total kwh 0) e /\
                yields (renewable_total kwh 100) (kwh * 0.02)) /\
  (forall kwh pct : Q, 0 <= kwh -> 0 <= pct <= 100 ->
      exists r grid renewable,
        simulate_renewable_energy kwh pct = Returns r /\
        dict_get r "grid" = Returns grid /\
        dict_get r "renewable" = Returns renewable /\
        0 <= grid /\ 0 <= renewable) /\
  (forall kwh : float, finite kwh = true ->
      exists r e,
        simulate_renewable_energy (PyFloat kwh) (PyInt 0) = Returns r /\
        electricity_emissions (PyFloat kwh) = Returns e /\
        dict_get r "grid" = Returns e /\
        equal_to (dict_get r "renewable") (PyInt 0) = true /\
        equal_to (dict_get r "total") e = true) /\
  (forall kwh : float, finite kwh = true ->
      exists r,
        simulate_renewable_energy (PyFloat kwh) (PyInt 100) = Returns r /\
        equal_to (dict_get r "grid") (PyInt 0) = true /\
        dict_get r "renewable" = Returns (PyFloat (kwh * literal 0.02)) /\
        equal_to (dict_get r "total") (PyFloat (kwh * literal 0.02)) = true).
Proof.
  split; [|split; [|split]].
  - intro kwh. eexists. split; [reflexivity|].
    split; cbn; exact_consts; field.
  - intros kwh pct Hk [Hp0 Hp1]. eexists _, _, _.
    split; [reflexivity|]. split; [reflexivity|]. split; [reflexivity|].
    exact_consts.
    assert (0 <= (100 - pct) / 100) by (apply Qle_shift_div_l; lra).
    assert (0 <= pct / 100) by (apply Qle_shift_div_l; lra).
    split; nra.
  - intros kwh Hk.
    destruct (renewable_at_0 _ Hk) as (total & renewable & -> & He & Hr & Ht).
    eexists _, _. split; [reflexivity|]. split; [exact He|].
    split; [reflexivity|]. split; [exact Hr | exact Ht].
  - intros kwh Hk.
    destruct (renewable_at_100 _ Hk) as (total & grid & -> & Hg & Ht).
    eexists. split; [reflexivity|]. split; [exact Hg|].
    split; [reflexivity | exact Ht].
Qed.

Lemma renewable_lever_endpoints_witness :
  (0 <= 500000 /\ 0 <= 50 <= 100 /\
   exists r grid renewable,
     simulate_renewable_energy 500000 50 = Returns r /\
     dict_get r "grid" = Returns grid /\
     dict_get r "renewable" = Returns renewable /\
     0 <= grid /\ 0 <= renewable) /\
  (finite 500000 = true /\
   exists r e,
     simulate_renewable_energy (PyFloat 500000) (PyInt 0) = Returns r /\
     electricity_emissions (PyFloat 500000) = Returns e /\
     dict_get r "grid" = Returns e /\
     equal_to (dict_get r "renewable") (PyInt 0) = true /\
     equal_to (dict_get r "total") e = true) /\
  (finite 500000 = true /\
   exists r,
     simulate_renewable_energy (PyFloat 500000) (PyInt 100) = Returns r /\
     equal_to (dict_get r "grid") (PyInt 0) = true /\
     dict_get r "renewable" = Returns (PyFloat (500000 * literal 0.02)) /\
     equal_to (dict_get r "total") (PyFloat (500000 * literal 0.02)) = true).
Proof.
  destruct renewable_lever_endpoints as (_ & Hb & H0 & H100).
  split; [|split].
  - split; [discriminate|]. split; [split; discriminate|].
    apply Hb; [discriminate | split; discriminate].
  - split; [reflexivity|]. apply H0. reflexivity.
  - split; [reflexivity|]. apply H100. reflexivity.
Defined.

(** X5.  Afforestation adds to what is there.  In exact arithmetic
    [simulate_afforestation] returns the current absorption plus
    [total_absorption] of what is added, two rounds of planting amount to
    one round of their sum, and adding nothing changes nothing; under
    CPython adding nothing returns a float equal to the current
    absorption. *)
Theorem afforestation_adds_to_current :
  (forall current area trees : Q,
      exists new added,
        simulate_afforestation current area trees = Returns new /\
        total_absorption area trees = Returns added /\
        new == current + added) /\
  (forall current a1 t1 a2 t2 : Q,
      exists first,
        simulate_afforestation current a1 t1 = Returns first /\
        exists twice once,
          simulate_afforestation first a2 t2 = Returns twice /\
          simulate_afforestation current (a1 + a2) (t1 + t2) = Returns once /\
          twice == once) /\
  (forall current : Q, yields (simulate_afforestation current 0 0) current) /\
  (forall current : float,
      CPython.eq (PyFloat current) (PyFloat current) = true ->
      equal_to (simulate_afforestation (PyFloat current) (PyFloat 0) (PyInt 0))
               (PyFloat current) = true).
Proof.
  split; [|split; [|split]].
  - intros current area trees. eexists _, _.
    split; [reflexivity|]. split; [reflexivity|]. exact_consts. ring.
  - intros current a1 t1 a2 t2. eexists. split; [reflexivity|].
    eexists _, _. split; [reflexivity|]. split; [reflexivity|].
    exact_consts. ring.
  - intro current. cbn. exact_consts. ring.
  - intros current Hc.
    change (simulate_afforestation (PyFloat current) (PyFloat 0) (PyInt 0))
      with (Returns (PyFloat (current + 0 + 0))).
    now apply add_zero_twice_equal.
Qed.

Lemma afforestation_adds_to_current_witness :
  CPython.eq (PyFloat 122000) (PyFloat 122000) = true /\
  equal_to (simulate_afforestation (PyFloat 122000) (PyFloat 0) (PyInt 0))
           (PyFloat 122000) = true.
Proof.
  destruct afforestation_adds_to_current as (_ & _ & _ & Hf).
  split; [reflexivity|]. apply Hf. reflexivity.
Defined.



End Levers.

(** ** [combined_simulation] and its parts *)

Section Combined.

Context {V : Type} `{PyNumber V}.

(** The dictionary of [simulate_renewable_energy] always has its three keys. *)
Lemma simulate_renewable_energy_keys (kwh pct : V) (r : dict V) :
  simulate_renewable_energy kwh pct = Returns r ->
  exists total grid renewable,
    r = [ ("total"%string, total); ("grid"%string, grid);
          ("renewable"%string, renewable) ].
Proof.
  unfold simulate_renewable_energy. intro Hr.
  repeat (apply bind_returns in Hr; destruct Hr as (? & _ & Hr)).
  injection Hr as <-. eauto.
Qed.

(** An exception of [combined_simulation] is an exception of one of the
    three simulations: reading ['total'] never fails. *)
Lemma combined_simulation_raises
    (diesel_em kwh current electrification_pct renewable_pct area trees : V)
    (e : exn) :
  combined_simulation diesel_em kwh current electrification_pct
                      renewable_pct area trees = Raises e ->
  simulate_electrification diesel_em electrification_pct = Raises e \/
  simulate_renewable_energy kwh renewable_pct = Raises e \/
  simulate_afforestation current area trees = Raises e.
Proof.
  intro He. unfold combined_simulation in He.
  apply bind_raises in He. destruct He as [He | (nd & Hd & He)]; [auto|].
  apply bind_raises in He. destruct He as [He | (dct & Hs & He)]; [auto|].
  apply bind_raises in He. destruct He as [He | (na & Ha & He)]; [auto|].
  destruct (simulate_renewable_energy_keys _ _ Hs) as (t & g & rn & ->).
  cbn in He. discriminate.
Qed.

(** X7.  [combined_simulation] is its three parts, for any kind of number.
    When it returns, the dictionary holds, under exactly the keys
    ['diesel_emissions'], ['electricity_emissions'] and
    ['total_absorption'], what [simulate_electrification], the ['total'] of
    [simulate_renewable_energy] and [simulate_afforestation] return on the
    corresponding arguments; it returns whenever the three do; any other key
    is a [KeyError]; and it raises only what one of the three raises. *)
Theorem combined_simulation_components
    (diesel_em kwh current electrification_pct renewable_pct area trees : V) :
  (forall r,
      combined_simulation diesel_em kwh current electrification_pct
                          renewable_pct area trees = Returns r ->
      exists new_diesel new_electricity new_absorption,
        simulate_electrification diesel_em electrification_pct
          = Returns new_diesel /\
        renewable_total kwh renewable_pct = Returns new_electricity /\
        simulate_afforestation current area trees = Returns new_absorption /\
        r = [ ("diesel_emissions"%string, new_diesel);
              ("electricity_emissions"%string, new_electricity);
              ("total_absorption"%string, new_absorption) ]) /\
  (forall new_diesel new_electricity new_absorption,
      simulate_electrification diesel_em electrification_pct
        = Returns new_diesel ->
      renewable_total kwh renewable_pct = Returns new_electricity ->
      simulate_afforestation current area trees = Returns new_absorption ->
      combined_simulation diesel_em kwh current electrification_pct
                          renewable_pct area trees
      = Returns [ ("diesel_emissions"%string, new_diesel);
                  ("electricity_emissions"%string, new_electricity);
                  ("total_absorption"%string, new_absorption) ]) /\
  (forall r k,
      combined_simulation diesel_em kwh current electrification_pct
                          renewable_pct area trees = Returns r ->
      k <> "diesel_emissions"%string ->
      k <> "electricity_emissions"%string ->
      k <> "total_absorption"%string ->
      dict_get r k = Raises KeyError) /\
  (forall e,
      combined_simulation diesel_em kwh current electrification_pct
                          renewable_pct area trees = Raises e ->
      simulate_electrification diesel_em electrification_pct = Raises e \/
      simulate_renewable_energy kwh renewable_pct = Raises e \/
      simulate_afforestation current area trees = Raises e).
Proof.
  assert (Hfwd : forall r,
      combined_simulation diesel_em kwh current electrification_pct
                          renewable_pct area trees = Returns r ->
      exists new_diesel new_electricity new_absorption,
        simulate_electrification diesel_em electrification_pct
          = Returns new_diesel /\
        renewable_total kwh renewable_pct = Returns new_electricity /\
        simulate_afforestation current area trees = Returns new_absorption /\
        r = [ ("diesel_emissions"%string, new_diesel);
              ("electricity_emissions"%string, new_electricity);
              ("total_absorption"%string, new_absorption) ]).
  { intros r Hr. unfold combined_simulation in Hr.
    apply bind_returns in Hr. destruct Hr as (nd & Hd & Hr).
    apply bind_returns in Hr. destruct Hr as (dct & He & Hr).
    apply bind_returns in Hr. destruct Hr as (na & Ha & Hr).
    apply bind_returns in Hr. destruct Hr as (ne & Ht & Hr).
    injection Hr as <-. exists nd, ne, na.
    split; [exact Hd|]. split; [|split; [exact Ha | reflexivity]].
    unfold renewable_total. rewrite He. exact Ht. }
  split; [exact Hfwd|]. split; [|split].
  - intros nd ne na Hd He Ha. unfold combined_simulation. rewrite Hd.
    unfold renewable_total in He.
    apply bind_returns in He. destruct He as (dct & He & Ht).
    rewrite He, Ha. cbn [bind]. rewrite Ht. reflexivity.
  - intros r k Hr K1 K2 K3.
    destruct (Hfwd r Hr) as (nd & ne & na & _ & _ & _ & ->).
    apply String.eqb_neq in K1, K2, K3. cbn [dict_get].
    now rewrite K1, K2, K3.
  - intros e. apply combined_simulation_raises.
Qed.

End Combined.

Lemma combined_simulation_components_witness :
  simulate_electrification (PyFloat 134000) (PyInt 30)
    = Returns (PyFloat 93800) /\
  renewable_total (PyFloat 500000) (PyInt 50) = Returns (PyFloat 210000) /\
  simulate_afforestation (PyFloat 122000) (PyFloat 20) (PyInt 2000)
    = Returns (PyFloat 366000) /\
  combined_simulation (PyFloat 134000) (PyFloat 500000) (PyFloat 122000)
                      (PyInt 30) (PyInt 50) (PyFloat 20) (PyInt 2000)
    = Returns [ ("diesel_emissions"%string, PyFloat 93800);
                ("electricity_emissions"%string, PyFloat 210000);
                ("total_absorption"%string, PyFloat 366000) ].
Proof.
  assert (Hd : simulate_electrification (PyFloat 134000) (PyInt 30)
               = Returns (PyFloat 93800)) by (vm_compute; reflexivity).
  assert (He : renewable_total (PyFloat 500000) (PyInt 50)
               = Returns (PyFloat 210000)) by (vm_compute; reflexivity).
  assert (Ha : simulate_afforestation (PyFloat 122000) (PyFloat 20) (PyInt 2000)
               = Returns (PyFloat 366000)) by (vm_compute; reflexivity).
  split; [exact Hd|]. split; [exact He|]. split; [exact Ha|].
  exact (proj1 (proj2 (combined_simulation_components
                         (PyFloat 134000) (PyFloat 500000) (PyFloat 122000)
                         (PyInt 30) (PyInt 50) (PyFloat 20) (PyInt 2000)))
               _ _ _ Hd He Ha).
Defined.

(** ** The cost of the remaining gap *)

Section Credits.

Local Open Scope Q_scope.

Lemma le_false_not_negative (g : float) :
  CPython.le (PyFloat g) (PyInt 0) = false -> not_negative (PyFloat g) = true.
Proof.
  unfold CPython.le, not_negative, CPython.lt. cbn [compare].
  destruct (Z_compare_SF 0 (Prim2SF g)) as [[ | | ]|]; cbn; congruence.
Qed.

(** X8.  The carbon credit cost is never negative.  In exact arithmetic it
    is zero exactly when the gap is not positive and it never decreases as
    the gap grows; under CPython, for every float gap, NaN and the
    infinities included, the call returns a cost that is not negative. *)
Theorem carbon_credits_never_negative :
  (forall g : Q,
      exists cost, calculate_carbon_credits g = Returns cost /\
                   0 <= cost /\ (cost == 0 <-> g <= 0)) /\
  (forall g1 g2 : Q, g1 <= g2 ->
      exists c1 c2, calculate_carbon_credits g1 = Returns c1 /\
                    calculate_carbon_credits g2 = Returns c2 /\ c1 <= c2) /\
  (forall g : float,
      exists cost, calculate_carbon_credits (PyFloat g) = Returns cost /\
                   not_negative cost = true).
Proof.
  split; [|split].
  - intro g. destruct (Qlt_le_dec 0 g) as [Hpos | Hneg].
    + exists (g * 15). split; [now apply exact_credits_pos|].
      split; [lra|]. split; intro; lra.
    + exists 0. split; [now apply exact_credits_nonpos|].
      split; [lra|]. split; intro; [exact Hneg | reflexivity].
  - intros g1 g2 Hg.
    destruct (Qlt_le_dec 0 g1) as [H1 | H1];
      destruct (Qlt_le_dec 0 g2) as [H2 | H2].
    + exists (g1 * 15), (g2 * 15).
      rewrite (exact_credits_pos H1), (exact_credits_pos H2).
      repeat split; lra.
    + lra.
    + exists 0, (g2 * 15).
      rewrite (exact_credits_nonpos H1), (exact_credits_pos H2).
      repeat split; lra.
    + exists 0, 0.
      rewrite (exact_credits_nonpos H1), (exact_credits_nonpos H2).
      repeat split; lra.
  - intro g. destruct (CPython.le (PyFloat g) (PyInt 0)) eqn:Hle.
    + exists (PyInt 0). split; [now apply cpython_credits_nonpos | reflexivity].
    + exists (PyFloat (g * 15)). split.
      * unfold calculate_carbon_credits.
        change (py_le (PyFloat g) (int_lit 0))
          with (CPython.le (PyFloat g) (PyInt 0)).
        rewrite Hle. reflexivity.
      * destruct literals_not_negative as (_ & _ & _ & _ & _ & _ & L).
        apply float_mul_nonneg; [now apply le_false_not_negative | exact L].
Qed.

Lemma carbon_credits_never_negative_witness :
  2628 <= 7470 /\
  exists c1 c2, calculate_carbon_credits 2628 = Returns c1 /\
                calculate_carbon_credits 7470 = Returns c2 /\ c1 <= c2.
Proof.
  destruct carbon_credits_never_negative as (_ & Hm & _).
  split; [discriminate|]. apply Hm. discriminate.
Defined.

End Credits.

(** ** The shares of the breakdown table *)

Section Shares.

Lemma SFdiv_nonneg (x y : spec_float) :
  nonneg_shape x -> Z_compare_SF 0 y = Some Lt ->
  nonneg_shape (SFdiv prec emax x y).
Proof.
  intros Hx Hy.
  destruct y as [sy | sy | | sy my ey]; try discriminate.
  - destruct sy; [discriminate|].
    destruct Hx as [-> | [[sx ->] | [-> | (mx & ex & ->)]]]; cbn [SFdiv xorb];
      unfold nonneg_shape; eauto 6.
  - destruct sy; [rewrite Z_compare_SF_0_neg in Hy; discriminate|].
    destruct Hx as [-> | [[sx ->] | [-> | (mx & ex & ->)]]]; cbn [SFdiv xorb];
      unfold nonneg_shape; eauto 6.
    destruct (SFdiv_core_binary prec emax (Z.pos mx) ex (Z.pos my) ey)
      as [[mz ez] lz].
    apply signed_like_nonneg, binary_round_aux_signed.
Qed.

Lemma float_100_not_negative : not_negative (PyFloat 100) = true.
Proof. reflexivity. Qed.

(** X9.  The percentage column of the breakdown table never divides by
    zero.  For all floats: when [total_em > 0] the share is the float
    [x / total_em * 100]; for any other total (zero of either sign,
    negative, NaN) it is the integer [0] and nothing is divided; either way
    the expression returns, and the share of an emission that is not
    negative is not negative. *)
Theorem percentage_never_divides_by_zero :
  (forall x total : float,
      CPython.lt (PyInt 0) (PyFloat total) = true ->
      percentage (PyFloat x) (PyFloat total)
        = Returns (PyFloat (x / total * 100))) /\
  (forall x total : float,
      CPython.lt (PyInt 0) (PyFloat total) = false ->
      percentage (PyFloat x) (PyFloat total) = Returns (PyInt 0)) /\
  (forall x total : float,
      exists share,
        percentage (PyFloat x) (PyFloat total) = Returns share /\
        (not_negative (PyFloat x) = true -> not_negative share = true)).
Proof.
  assert (Hpos : forall x total : float,
             CPython.lt (PyInt 0) (PyFloat total) = true ->
             percentage (PyFloat x) (PyFloat total)
             = Returns (PyFloat (x / total * 100))).
  { intros x total Ht. unfold percentage.
    change (py_gt (PyFloat total) (int_lit 0))
      with (CPython.lt (PyInt 0) (PyFloat total)).
    rewrite Ht. cbn. unfold float_div. cbn.
    rewrite (lt_zero_float_nonzero _ Ht). reflexivity. }
  assert (Hnot : forall x total : float,
             CPython.lt (PyInt 0) (PyFloat total) = false ->
             percentage (PyFloat x) (PyFloat total) = Returns (PyInt 0)).
  { intros x total Ht. unfold percentage.
    change (py_gt (PyFloat total) (int_lit 0))
      with (CPython.lt (PyInt 0) (PyFloat total)).
    now rewrite Ht. }
  split; [exact Hpos|]. split; [exact Hnot|].
  intros x total.
  destruct (CPython.lt (PyInt 0) (PyFloat total)) eqn:Ht.
  - exists (PyFloat (x / total * 100)). split; [now apply Hpos|].
    intro Hx. apply float_mul_nonneg; [|exact float_100_not_negative].
    apply not_negative_float. rewrite div_spec.
    apply SFdiv_nonneg; [now apply not_negative_float|].
    unfold CPython.lt in Ht. cbn [compare] in Ht.
    destruct (Z_compare_SF 0 (Prim2SF total)) as [[ | | ]|];
      try discriminate. reflexivity.
  - exists (PyInt 0). split; [now apply Hnot | reflexivity].
Qed.

Lemma percentage_never_divides_by_zero_witness :
  (CPython.lt (PyInt 0) (PyFloat 869000) = true /\
   percentage (PyFloat 134000) (PyFloat 869000)
     = Returns (PyFloat (134000 / 869000 * 100))) /\
  (CPython.lt (PyInt 0) (PyFloat (-0)) = false /\
   percentage (PyFloat 134000) (PyFloat (-0)) = Returns (PyInt 0)) /\
  (exists share,
      percentage (PyFloat 134000) (PyFloat 869000) = Returns share /\
      not_negative (PyFloat 134000) = true /\ not_negative share = true).
Proof.
  destruct percentage_never_divides_by_zero as (Hp & Hn & Hs).
  split; [|split].
  - split; [reflexivity|]. apply Hp. reflexivity.
  - split; [reflexivity|]. apply Hn. reflexivity.
  - destruct (Hs 134000%float 869000%float) as (share & Hshare & Hsign).
    exists share. split; [exact Hshare|]. split; [reflexivity|].
    apply Hsign. reflexivity.
Defined.

End Shares.

(** ** The gap and the land it needs *)

Section GapAndLand.

Local Open Scope Q_scope.

Lemma Z_compare_SF_0_signed_neg (x : spec_float) :
  signed_like true x -> Z_compare_SF 0 x <> Some Lt.
Proof.
  intros [-> | [-> | [-> | (m & e & ->)]]];
    [cbn; discriminate .. | rewrite Z_compare_SF_0_neg; discriminate].
Qed.

(** A quotient by a positive constant is positive only if the dividend is. *)
Lemma SFdiv_pos_inv (x : spec_float) (m : positive) (e : Z) :
  Z_compare_SF 0 (SFdiv prec emax x (S754_finite false m e)) = Some Lt ->
  Z_compare_SF 0 x = Some Lt.
Proof.
  destruct x as [s | s | | s mx ex]; cbn [SFdiv].
  - cbn. discriminate.
  - destruct s; cbn; congruence.
  - cbn. discriminate.
  - destruct s; [|intros _; apply Z_compare_SF_0_pos].
    destruct (SFdiv_core_binary prec emax (Z.pos mx) ex (Z.pos m) e)
      as [[mz ez] lz].
    intro Hq. exfalso. revert Hq. apply Z_compare_SF_0_signed_neg.
    cbn [xorb]. apply binary_round_aux_signed.
Qed.

Lemma float_1000_shape : exists m e, Prim2SF 1000 = S754_finite false m e.
Proof. eexists _, _. vm_compute. reflexivity. Qed.

(** X11.  The land requirement is shown only for a positive gap.  For all
    floats, with [emission_gap_kg = total_em - total_absorption_kg] and
    [emission_gap_tonnes = emission_gap_kg / 1000] as app.py computes them:
    whenever the gap in tonnes is above zero (the branch that shows the land
    requirement) the gap in kg is above zero too, the land required is the
    float [emission_gap_kg / 10000] and it is not negative; and whenever the
    gap in kg is zero or below, the land required is the integer [0] and the
    gap in tonnes is not above zero, so the other branch is taken. *)
Theorem land_shown_only_for_positive_gap :
  (forall total_em total_absorption_kg : float,
      emission_gap_kg (PyFloat total_em) (PyFloat total_absorption_kg)
        = Returns (PyFloat (total_em - total_absorption_kg))) /\
  (forall gap_kg : float,
      emission_gap_tonnes (PyFloat gap_kg) = Returns (PyFloat (gap_kg / 1000))) /\
  (forall gap_kg : float,
      py_gt (PyFloat (gap_kg / 1000)) (PyInt 0) = true ->
      land_required_for_neutrality (PyFloat gap_kg)
        = Returns (PyFloat (gap_kg / 10000)) /\
      py_gt (PyFloat gap_kg) (PyInt 0) = true /\
      not_negative (PyFloat (gap_kg / 10000)) = true) /\
  (forall gap_kg : float,
      CPython.le (PyFloat gap_kg) (PyInt 0) = true ->
      land_required_for_neutrality (PyFloat gap_kg) = Returns (PyInt 0) /\
      py_gt (PyFloat (gap_kg / 1000)) (PyInt 0) = false).
Proof.
  assert (Hdiv : forall gap_kg : float,
             CPython.lt (PyInt 0) (PyFloat (gap_kg / 1000)) = true ->
             CPython.lt (PyInt 0) (PyFloat gap_kg) = true).
  { intros gap_kg Hpos. unfold CPython.lt in *. cbn [compare] in *.
    rewrite div_spec in Hpos.
    destruct float_1000_shape as (m & e & Hs). rewrite Hs in Hpos.
    unfold SF64div in Hpos.
    destruct (Z_compare_SF 0 (SFdiv prec emax (Prim2SF gap_kg)
                                    (S754_finite false m e)))
      as [[ | | ]|] eqn:E; try discriminate.
    apply SFdiv_pos_inv in E. now rewrite E. }
  split; [intros; reflexivity|]. split; [intros; reflexivity|]. split.
  - intros gap_kg Hpos.
    change (py_gt (PyFloat (gap_kg / 1000)) (PyInt 0))
      with (CPython.lt (PyInt 0) (PyFloat (gap_kg / 1000))) in Hpos.
    pose proof (Hdiv gap_kg Hpos) as Hg.
    split; [|split; [exact Hg|]].
    + apply cpython_land_required_else. now apply lt_zero_not_le.
    + destruct (cpython_land_required_never_negative gap_kg) as (r & Hr & Hn).
      rewrite (cpython_land_required_else gap_kg (lt_zero_not_le _ Hg)) in Hr.
      injection Hr as <-. unfold not_negative. now rewrite Hn.
  - intros gap_kg Hle. split; [now apply cpython_land_required_nonpos|].
    change (py_gt (PyFloat (gap_kg / 1000)) (PyInt 0))
      with (CPython.lt (PyInt 0) (PyFloat (gap_kg / 1000))).
    destruct (CPython.lt (PyInt 0) (PyFloat (gap_kg / 1000))) eqn:Hpos;
      [|reflexivity].
    apply Hdiv, lt_zero_not_le in Hpos. congruence.
Qed.

Lemma land_shown_only_for_positive_gap_witness :
  (py_gt (PyFloat (747000 / 1000)) (PyInt 0) = true /\
   land_required_for_neutrality (PyFloat 747000)
     = Returns (PyFloat (747000 / 10000)) /\
   py_gt (PyFloat 747000) (PyInt 0) = true /\
   not_negative (PyFloat (747000 / 10000)) = true) /\
  (CPython.le (PyFloat (-253000)) (PyInt 0) = true /\
   land_required_for_neutrality (PyFloat (-253000)) = Returns (PyInt 0) /\
   py_gt (PyFloat (-253000 / 1000)) (PyInt 0) = false).
Proof.
  destruct land_shown_only_for_positive_gap as (_ & _ & Hpos & Hneg).
  split.
  - split; [reflexivity|]. apply (Hpos 747000%float). reflexivity.
  - split; [reflexivity|]. apply (Hneg (-253000)%float). reflexivity.
Defined.

End GapAndLand.

(** ** The errors the arithmetic can raise *)

Section Errors.

Local Open Scope Z_scope.

Lemma only_overflows_checked (x : spec_float) : only_overflows (checked x).
Proof.
  destruct x; cbn;
    first [apply only_overflows_returns | apply only_overflows_raise].
Qed.

Lemma only_overflows_to_float (v : PyVal) : only_overflows (to_float v).
Proof.
  destruct v; cbn; [apply only_overflows_checked | apply only_overflows_returns].
Qed.

Lemma only_overflows_float_op (op : float -> float -> float) (a b : PyVal) :
  only_overflows (float_op op a b).
Proof.
  unfold float_op.
  apply only_overflows_bind; [apply only_overflows_to_float | intro x].
  apply only_overflows_bind; [apply only_overflows_to_float | intro y].
  apply only_overflows_returns.
Qed.

Lemma only_overflows_add (a b : PyVal) : only_overflows (CPython.add a b).
Proof.
  destruct a, b; cbn [CPython.add];
    first [apply only_overflows_returns | apply only_overflows_float_op].
Qed.

Lemma only_overflows_sub (a b : PyVal) : only_overflows (CPython.sub a b).
Proof.
  destruct a, b; cbn [CPython.sub];
    first [apply only_overflows_returns | apply only_overflows_float_op].
Qed.

Lemma only_overflows_mul (a b : PyVal) : only_overflows (CPython.mul a b).
Proof.
  destruct a, b; cbn [CPython.mul];
    first [apply only_overflows_returns | apply only_overflows_float_op].
Qed.

(** Division by a non-zero integer constant whose float is not zero. *)
Lemma only_overflows_truediv_const (a : PyVal) (c : Z) (y : float) :
  (c =? 0)%Z = false -> to_float (PyInt c) = Returns y ->
  PrimFloat.eqb y 0 = false ->
  only_overflows (truediv a (PyInt c)).
Proof.
  intros Hc Hy Hy0. destruct a as [m | x]; cbn [truediv].
  - unfold int_true_divide. rewrite Hc.
    apply only_overflows_bind; [apply only_overflows_checked | intro q].
    apply only_overflows_returns.
  - unfold float_div. rewrite Hy. cbn [to_float bind]. rewrite Hy0.
    apply only_overflows_returns.
Qed.

Lemma only_overflows_div_consts (a : PyVal) :
  only_overflows (truediv a (PyInt 100)) /\
  only_overflows (truediv a (PyInt 1000)) /\
  only_overflows (truediv a (PyInt 10000)).
Proof.
  split; [|split].
  - now apply only_overflows_truediv_const with 100%float.
  - now apply only_overflows_truediv_const with 1000%float.
  - now apply only_overflows_truediv_const with 10000%float.
Qed.

Ltac overflows :=
  repeat first
    [ apply only_overflows_returns
    | exact (only_overflows_add _ _)
    | exact (only_overflows_sub _ _)
    | exact (only_overflows_mul _ _)
    | exact (proj1 (only_overflows_div_consts _))
    | exact (proj1 (proj2 (only_overflows_div_consts _)))
    | exact (proj2 (proj2 (only_overflows_div_consts _)))
    | apply only_overflows_lift2_const; [ | intros ]
    | apply only_overflows_lift2; [ | | intros ]
    | apply only_overflows_bind; [ | intros ] ].

(** The guard [workers == 0] leaves no way to divide by zero, whatever the
    types of the two arguments. *)
Lemma only_overflows_per_capita (total workers : PyVal) :
  only_overflows (per_capita_emissions total workers).
Proof.
  unfold per_capita_emissions.
  change (py_eq workers (int_lit 0)) with (CPython.eq workers (PyInt 0)).
  destruct (CPython.eq workers (PyInt 0)) eqn:Ew;
    [apply only_overflows_returns|].
  change (only_overflows (truediv total workers)).
  assert (Hdiv : forall y, to_float workers = Returns y ->
                           PrimFloat.eqb y 0 = false).
  { destruct workers as [w | w]; cbn [to_float]; intros y Hy.
    - apply int_to_float_nonzero with w; [|exact Hy].
      intros ->. discriminate.
    - injection Hy as <-. now apply eq_zero_false_float. }
  assert (Hfloat : only_overflows (float_div total workers)).
  { unfold float_div.
    apply only_overflows_bind; [apply only_overflows_to_float | intro x].
    intros e He. apply bind_raises in He.
    destruct He as [He | (y & Hy & He)];
      [exact (only_overflows_to_float workers He)|].
    rewrite (Hdiv y Hy) in He. discriminate. }
  destruct total as [t | t], workers as [w | w]; cbn [truediv];
    try exact Hfloat.
  unfold int_true_divide.
  destruct (w =? 0) eqn:Hw.
  - apply Z.eqb_eq in Hw. subst w. discriminate.
  - apply only_overflows_bind; [apply only_overflows_checked | intro q].
    apply only_overflows_returns.
Qed.

(** X12.  The only exception the calculations can raise is
    [OverflowError].  Whatever [int] or [float] arguments they are given,
    none of the functions of emissions.py, sinks.py and simulations.py
    raises a [ZeroDivisionError] or a [KeyError]: every divisor is a
    non-zero constant or, in [per_capita_emissions], is guarded by
    [workers == 0], and [combined_simulation] reads a key that is always
    there.  An [OverflowError] needs an [int] too large for a float. *)
Theorem core_fails_only_by_overflow :
  (forall litres, only_overflows (diesel_emissions (V:=PyVal) litres)) /\
  (forall kwh, only_overflows (electricity_emissions (V:=PyVal) kwh)) /\
  (forall coal, only_overflows (excavation_emissions (V:=PyVal) coal)) /\
  (forall coal km,
      only_overflows (transportation_emissions (V:=PyVal) coal km)) /\
  (forall a b c d, only_overflows (total_emissions (V:=PyVal) a b c d)) /\
  (forall total workers,
      only_overflows (per_capita_emissions (V:=PyVal) total workers)) /\
  (forall kg, only_overflows (emissions_in_tonnes (V:=PyVal) kg)) /\
  (forall area, only_overflows (carbon_absorption_from_area (V:=PyVal) area)) /\
  (forall trees,
      only_overflows (carbon_absorption_from_trees (V:=PyVal) trees)) /\
  (forall area trees,
      only_overflows (total_absorption (V:=PyVal) area trees)) /\
  (forall kg, only_overflows (absorption_in_tonnes (V:=PyVal) kg)) /\
  (forall gap, only_overflows (land_required_for_neutrality (V:=PyVal) gap)) /\
  (forall d pct, only_overflows (simulate_electrification (V:=PyVal) d pct)) /\
  (forall kwh pct,
      only_overflows (simulate_renewable_energy (V:=PyVal) kwh pct)) /\
  (forall cur area trees,
      only_overflows (simulate_afforestation (V:=PyVal) cur area trees)) /\
  (forall gap, only_overflows (calculate_carbon_credits (V:=PyVal) gap)) /\
  (forall d kwh cur ep rp area trees,
      only_overflows (combined_simulation (V:=PyVal) d kwh cur ep rp area trees)).
Proof.
  assert (Harea : forall area,
             only_overflows (carbon_absorption_from_area (V:=PyVal) area)).
  { intro. unfold carbon_absorption_from_area. overflows. }
  assert (Htrees : forall trees,
             only_overflows (carbon_absorption_from_trees (V:=PyVal) trees)).
  { intro. unfold carbon_absorption_from_trees. overflows. }
  assert (Helec : forall d pct,
             only_overflows (simulate_electrification (V:=PyVal) d pct)).
  { intros. unfold simulate_electrification. overflows. }
  assert (Hren : forall kwh pct,
             only_overflows (simulate_renewable_energy (V:=PyVal) kwh pct)).
  { intros. unfold simulate_renewable_energy. overflows. }
  assert (Haff : forall cur area trees,
             only_overflows (simulate_afforestation (V:=PyVal) cur area trees)).
  { intros. unfold simulate_afforestation.
    apply only_overflows_bind; [apply Harea | intro].
    apply only_overflows_bind; [apply Htrees | intro]. overflows. }
  repeat split; intros;
    try exact (Harea _); try exact (Htrees _); try exact (Helec _ _);
    try exact (Hren _ _); try exact (Haff _ _ _);
    try exact (only_overflows_per_capita _ _).
  - unfold diesel_emissions. overflows.
  - unfold electricity_emissions. overflows.
  - unfold excavation_emissions. overflows.
  - unfold transportation_emissions. overflows.
  - unfold total_emissions. overflows.
  - unfold emissions_in_tonnes. overflows.
  - unfold total_absorption.
    apply only_overflows_bind; [apply Harea | intro].
    apply only_overflows_bind; [apply Htrees | intro]. overflows.
  - unfold absorption_in_tonnes. overflows.
  - unfold land_required_for_neutrality.
    destruct (py_le _ _); overflows.
  - unfold calculate_carbon_credits. destruct (py_le _ _); overflows.
  - intros e He. apply combined_simulation_raises in He.
    destruct He as [He | [He | He]];
      [exact (Helec _ _ _ He) | exact (Hren _ _ _ He) | exact (Haff _ _ _ _ He)].
Qed.

(** An [int] that does not fit a float does overflow, and that is the
    error reported. *)
Lemma core_fails_only_by_overflow_witness :
  exists e, diesel_emissions (PyInt (2 ^ 1024)) = Raises e /\
            e = OverflowError.
Proof.
  assert (H : diesel_emissions (PyInt (2 ^ 1024)) = Raises OverflowError)
    by (vm_compute; reflexivity).
  exists OverflowError. split; [exact H|].
  exact (proj1 core_fails_only_by_overflow _ _ H).
Defined.

End Errors.

(** ** The dashboard's calls *)

Section Dashboard.

Local Open Scope Z_scope.

Lemma per_capita_int_workers (total_em : float) (num_workers : Z) :
  1 <= num_workers < 2 ^ 1023 ->
  exists y,
    int_to_float num_workers = Returns y /\
    per_capita_emissions (PyFloat total_em) (PyInt num_workers)
      = Returns (PyFloat (total_em / y)).
Proof.
  intros [Hlo Hhi].
  destruct (@int_to_float_returns num_workers) as [y Hy]; [lia|].
  exists y. split; [exact Hy|].
  rewrite cpython_per_capita_pos
    by (unfold CPython.lt; cbn [compare];
        destruct (Z.compare_spec 0 num_workers); [lia | reflexivity | lia]).
  cbn [truediv]. unfold float_div. cbn [to_float bind]. rewrite Hy. cbn [bind].
  rewrite (@int_to_float_nonzero num_workers y); [reflexivity | lia | exact Hy].
Qed.

Lemma slider_fractions (pct : Z) :
  0 <= pct <= 100 ->
  exists grid_part renewable_part,
    truediv (PyInt (100 - pct)) (PyInt 100) = Returns (PyFloat grid_part) /\
    truediv (PyInt pct) (PyInt 100) = Returns (PyFloat renewable_part).
Proof.
  intro Hp.
  assert (Hall : forallb slider_fractions_at (Z_range 0 100) = true)
    by (vm_compute; reflexivity).
  pose proof (@Z_range_forallb slider_fractions_at 0 100 Hall pct Hp) as H.
  unfold slider_fractions_at in H.
  change (py_truediv (PyInt (100 - pct)) (PyInt 100))
    with (truediv (PyInt (100 - pct)) (PyInt 100)) in H.
  change (py_truediv (PyInt pct) (PyInt 100))
    with (truediv (PyInt pct) (PyInt 100)) in H.
  destruct (truediv (PyInt (100 - pct)) (PyInt 100)) as [[n | g] | e1];
    try discriminate.
  destruct (truediv (PyInt pct) (PyInt 100)) as [[n | r] | e2];
    try discriminate.
  eauto.
Qed.

Lemma cpython_credits_returns (gap : float) :
  exists cost, calculate_carbon_credits (PyFloat gap) = Returns cost.
Proof.
  destruct (CPython.le (PyFloat gap) (PyInt 0)) eqn:Hle.
  - exists (PyInt 0). now apply cpython_credits_nonpos.
  - exists (PyFloat (gap * 15)). unfold calculate_carbon_credits.
    change (py_le (PyFloat gap) (int_lit 0))
      with (CPython.le (PyFloat gap) (PyInt 0)).
    rewrite Hle. reflexivity.
Qed.

(** X13.  No setting of the dashboard's widgets makes its arithmetic raise.
    With float quantities of any value, a head count from 1, tree counts
    from 0 (both below the point where [float()] overflows) and the two
    percentage sliders anywhere from 0 to 100, every call of the current
    state and of the simulation, made in the order and on the values of
    app.py, returns: the emissions, their total and the per-capita figure,
    the absorption, the tonnes, the gap and the land required, then
    [combined_simulation] with its three keys, the new total, the new gap
    and the cost of the credits. *)
Theorem dashboard_arithmetic_never_raises :
  forall (diesel_litres electricity_kwh coal_extracted transport_distance
          plantation_area added_plantation : float)
         (num_workers num_trees electrification_pct renewable_pct
          added_trees_sim : Z),
    1 <= num_workers < 2 ^ 1023 ->
    0 <= num_trees -> num_trees * 22 < 2 ^ 1023 ->
    0 <= electrification_pct <= 100 ->
    0 <= renewable_pct <= 100 ->
    0 <= added_trees_sim -> added_trees_sim * 22 < 2 ^ 1023 ->
    exists diesel_em electricity_em excavation_em transport_em total_em
           per_capita_em total_absorption_kg total_em_tonnes
           total_absorption_tonnes gap_kg gap_tonnes
           new_diesel_em new_electricity_em new_absorption
           new_total new_gap : float,
    exists land_needed credit_cost : PyVal,
      diesel_emissions (PyFloat diesel_litres) = Returns (PyFloat diesel_em) /\
      electricity_emissions (PyFloat electricity_kwh)
        = Returns (PyFloat electricity_em) /\
      excavation_emissions (PyFloat coal_extracted)
        = Returns (PyFloat excavation_em) /\
      transportation_emissions (PyFloat coal_extracted)
                               (PyFloat transport_distance)
        = Returns (PyFloat transport_em) /\
      total_emissions (PyFloat diesel_em) (PyFloat electricity_em)
                      (PyFloat excavation_em) (PyFloat transport_em)
        = Returns (PyFloat total_em) /\
      per_capita_emissions (PyFloat total_em) (PyInt num_workers)
        = Returns (PyFloat per_capita_em) /\
      total_absorption (PyFloat plantation_area) (PyInt num_trees)
        = Returns (PyFloat total_absorption_kg) /\
      emissions_in_tonnes (PyFloat total_em)
        = Returns (PyFloat total_em_tonnes) /\
      absorption_in_tonnes (PyFloat total_absorption_kg)
        = Returns (PyFloat total_absorption_tonnes) /\
      emission_gap_kg (PyFloat total_em) (PyFloat total_absorption_kg)
        = Returns (PyFloat gap_kg) /\
      emission_gap_tonnes (PyFloat gap_kg) = Returns (PyFloat gap_tonnes) /\
      land_required_for_neutrality (PyFloat gap_kg) = Returns land_needed /\
      combined_simulation (PyFloat diesel_em) (PyFloat electricity_kwh)
                          (PyFloat total_absorption_kg)
                          (PyInt electrification_pct) (PyInt renewable_pct)
                          (PyFloat added_plantation) (PyInt added_trees_sim)
        = Returns [ ("diesel_emissions"%string, PyFloat new_diesel_em);
                    ("electricity_emissions"%string, PyFloat new_electricity_em);
                    ("total_absorption"%string, PyFloat new_absorption) ] /\
      new_total_em (PyFloat new_diesel_em) (PyFloat new_electricity_em)
                   (PyFloat excavation_em) (PyFloat transport_em)
        = Returns (PyFloat new_total) /\
      new_gap_tonnes (PyFloat new_total) (PyFloat new_absorption)
        = Returns (PyFloat new_gap) /\
      calculate_carbon_credits (PyFloat new_gap) = Returns credit_cost.
Proof.
  intros diesel_litres electricity_kwh coal_extracted transport_distance
         plantation_area added_plantation
         num_workers num_trees electrification_pct renewable_pct
         added_trees_sim Hw Ht Htbig He Hr Ha Habig.
  set (diesel_em := (diesel_litres * literal 2.68)%float).
  set (electricity_em := (electricity_kwh * literal 0.82)%float).
  set (excavation_em := (coal_extracted * literal 0.15)%float).
  set (transport_em :=
         (coal_extracted * transport_distance * literal 0.062)%float).
  set (total_em :=
         (diesel_em + electricity_em + excavation_em + transport_em)%float).
  destruct (per_capita_int_workers total_em Hw) as (w & _ & Hpc).
  destruct (@int_to_float_returns (num_trees * 22)) as [y Hy]; [lia|].
  destruct (@int_to_float_returns (added_trees_sim * 22)) as [y' Hy']; [lia|].
  set (total_absorption_kg := (plantation_area * 10000 + y)%float).
  set (gap_kg := (total_em - total_absorption_kg)%float).
  destruct (slider_fractions He) as (fe & _ & Hfe & _).
  destruct (slider_fractions Hr) as (fg & fr & Hfg & Hfr).
  destruct (cpython_land_required_never_negative gap_kg) as (land & Hland & _).
  set (new_diesel_em := (diesel_em * fe)%float).
  set (new_electricity_em :=
         (electricity_kwh * fg * literal 0.82
          + electricity_kwh * fr * literal 0.02)%float).
  set (new_absorption :=
         (total_absorption_kg + added_plantation * 10000 + y')%float).
  set (new_total :=
         (new_diesel_em + new_electricity_em + excavation_em
          + transport_em)%float).
  set (new_gap := ((new_total - new_absorption) / 1000)%float).
  destruct (cpython_credits_returns new_gap) as (cost & Hcost).
  exists diesel_em, electricity_em, excavation_em, transport_em, total_em,
         (total_em / w)%float, total_absorption_kg, (total_em / 1000)%float,
         (total_absorption_kg / 1000)%float, gap_kg, (gap_kg / 1000)%float,
         new_diesel_em, new_electricity_em, new_absorption, new_total, new_gap.
  exists land, cost.
  repeat (split; [reflexivity|]).
  split; [exact Hpc|].
  split.
  { unfold total_absorption, carbon_absorption_from_area,
      carbon_absorption_from_trees. cbn. unfold float_op. cbn.
    now rewrite Hy. }
  repeat (split; [reflexivity|]).
  split; [exact Hland|].
  split.
  { assert (E1 : simulate_electrification (PyFloat diesel_em)
                                          (PyInt electrification_pct)
                 = Returns (PyFloat new_diesel_em)).
    { unfold simulate_electrification.
      change ((!(int_lit 100) - !(PyInt electrification_pct))
                / !(int_lit 100))%py
        with (truediv (PyInt (100 - electrification_pct)) (PyInt 100)).
      rewrite Hfe. reflexivity. }
    assert (E2 : simulate_renewable_energy (PyFloat electricity_kwh)
                                           (PyInt renewable_pct)
                 = Returns [ ("total"%string, PyFloat new_electricity_em);
                             ("grid"%string,
                              PyFloat (electricity_kwh * fg * literal 0.82));
                             ("renewable"%string,
                              PyFloat (electricity_kwh * fr * literal 0.02)) ]).
    { unfold simulate_renewable_energy.
      change ((!(int_lit 100) - !(PyInt renewable_pct)) / !(int_lit 100))%py
        with (truediv (PyInt (100 - renewable_pct)) (PyInt 100)).
      rewrite Hfg. cbn [bind].
      change (!(PyInt renewable_pct) / !(int_lit 100))%py
        with (truediv (PyInt renewable_pct) (PyInt 100)).
      rewrite Hfr. reflexivity. }
    assert (E3 : simulate_afforestation (PyFloat total_absorption_kg)
                   (PyFloat added_plantation) (PyInt added_trees_sim)
                 = Returns (PyFloat new_absorption)).
    { unfold simulate_afforestation, carbon_absorption_from_area,
        carbon_absorption_from_trees. cbn. unfold float_op. cbn.
      now rewrite Hy'. }
    unfold combined_simulation. rewrite E1, E2, E3. reflexivity. }
  split; [reflexivity|]. split; [reflexivity | exact Hcost].
Qed.

Lemma dashboard_arithmetic_never_raises_witness :
  1 <= 500 < 2 ^ 1023 /\
  0 <= 1000 /\ 1000 * 22 < 2 ^ 1023 /\
  0 <= 30 <= 100 /\ 0 <= 50 <= 100 /\
  0 <= 2000 /\ 2000 * 22 < 2 ^ 1023 /\
  exists per_capita_em new_gap : float,
  exists credit_cost : PyVal,
    per_capita_emissions (PyFloat 869000) (PyInt 500)
      = Returns (PyFloat per_capita_em) /\
    combined_simulation (PyFloat 134000) (PyFloat 500000) (PyFloat 122000)
                        (PyInt 30) (PyInt 50) (PyFloat 20) (PyInt 2000)
      = Returns [ ("diesel_emissions"%string, PyFloat 93800);
                  ("electricity_emissions"%string, PyFloat 210000);
                  ("total_absorption"%string, PyFloat 366000) ] /\
    new_gap_tonnes (PyFloat 628800) (PyFloat 366000)
      = Returns (PyFloat new_gap) /\
    calculate_carbon_credits (PyFloat new_gap) = Returns credit_cost.
Proof.
  split; [split; [discriminate | reflexivity]|].
  split; [discriminate|]. split; [reflexivity|].
  split; [split; discriminate|]. split; [split; discriminate|].
  split; [discriminate|]. split; [reflexivity|].
  destruct (@dashboard_arithmetic_never_raises
              50000%float 500000%float 100000%float 50%float 10%float
              20%float 500 1000 30 50 2000)
    as (d & e & x & t & total & pc & ab & tt & at' & g & gt
        & nd & ne & na & nt & ng & land & cost
        & Hd & He & Hx & Ht & Htot & Hpc & Hab & _ & _ & _ & _ & _
        & Hsim & Hnt & Hng & Hcost);
    [ split; [discriminate | reflexivity] | discriminate | reflexivity
    | split; discriminate | split; discriminate | discriminate | reflexivity |].
  vm_compute in Hd. injection Hd as <-.
  vm_compute in He. injection He as <-.
  vm_compute in Hx. injection Hx as <-.
  vm_compute in Ht. injection Ht as <-.
  vm_compute in Htot. injection Htot as <-.
  vm_compute in Hab. injection Hab as <-.
  exists pc, ng, cost.
  split; [exact Hpc|].
  assert (Hsim' := Hsim). vm_compute in Hsim'.
  injection Hsim' as <- <- <-.
  split; [exact Hsim|].
  vm_compute in Hnt. injection Hnt as <-.
  split; [exact Hng | exact Hcost].
Defined.

End Dashboard.

